(** * UPB PIM config flow: a shallow embedding of
      [homeassistant/components/upb/config_flow.py] and its properties. *)

From Stdlib Require Import Ascii String.
From stdpp Require Import base option list strings gmap pretty.

Open Scope string_scope.
Open Scope list_scope.

(** ** Python values, exceptions and results *)

(** The values that occur in the dictionaries handled by the flow: strings
    and [None]. *)
Inductive value :=
| VNone
| VStr (s : string).

#[global] Instance value_eq_dec : EqDecision value.
Proof. solve_decision. Defined.

(** Python truthiness: [None] and the empty string are false. *)
Definition truthy (v : value) : bool :=
  match v with
  | VNone => false
  | VStr s => negb (bool_decide (s = ""))
  end.

(** [str(v)], as used by an f-string or by ["%s"]. *)
Definition py_str (v : value) : string :=
  match v with
  | VNone => "None"
  | VStr s => s
  end.

(** A Python [dict] with string keys. *)
Abbreviation dict := (gmap string value).

Inductive exn :=
| KeyError (key : value)
| ValueError (msg : string)
| CannotConnect
| InvalidUpbFile
| AbortFlow (reason : string).

#[global] Instance exn_eq_dec : EqDecision exn.
Proof. solve_decision. Defined.

Inductive result (A : Type) :=
| Ok (a : A)
| Raise (e : exn).
Arguments Ok {A} a.
Arguments Raise {A} e.

(** [d.get(k)]: [None] when the key is absent. *)
Definition dict_get (d : dict) (k : string) : value :=
  default VNone (d !! k).

(** [d[k]]: raises [KeyError(k)] when the key is absent. *)
Definition dict_getitem (d : dict) (k : string) : result value :=
  match d !! k with
  | Some v => Ok v
  | None => Raise (KeyError (VStr k))
  end.

(** ** Constants *)

(** From [homeassistant.const]. *)
Definition CONF_ADDRESS : string := "address".
Definition CONF_FILE_PATH : string := "file_path".
Definition CONF_HOST : string := "host".
Definition CONF_PROTOCOL : string := "protocol".

Definition PROTOCOL_MAP : gmap string string :=
  <["TCP" := "tcp://"]> (<["Serial port" := "serial://"]> ∅).

Definition VALIDATE_TIMEOUT : nat := 15.

(** [PROTOCOL_MAP[k]]: a key that is not a string of the table raises
    [KeyError]. *)
Definition PROTOCOL_MAP_getitem (k : value) : result string :=
  match k with
  | VStr s =>
      match PROTOCOL_MAP !! s with
      | Some scheme => Ok scheme
      | None => Raise (KeyError k)
      end
  | VNone => Raise (KeyError k)
  end.

(** ** Effects: an event trace and exceptions *)

Inductive event :=
| EvValidateInput (data : dict)
| EvUpbPim (url : string) (file_path : value)
| EvLogError (fmt : string) (args : list string)
| EvConnect
| EvWait (elapsed : nat)
| EvDisconnect.

#[global] Instance event_eq_dec : EqDecision event.
Proof. solve_decision. Defined.

#[global] Instance result_ret : MRet result := λ A a, Ok a.
#[global] Instance result_bind : MBind result := λ A B k m,
  match m with
  | Ok a => k a
  | Raise e => Raise e
  end.

(** A computation yields a result or an exception, and the events it
    performed, oldest first. *)
Definition M (A : Type) : Type := result A * list event.

#[global] Instance M_ret : MRet M := λ A a, (Ok a, []).
#[global] Instance M_bind : MBind M := λ A B k m,
  match m with
  | (Ok a, tr) => let '(r, tr') := k a in (r, tr ++ tr')
  | (Raise e, tr) => (Raise e, tr)
  end.

Definition raise {A} (e : exn) : M A := (Raise e, []).
Definition tell (ev : event) : M unit := (Ok tt, [ev]).
Definition lift {A} (r : result A) : M A := (r, []).

(** ** [_make_url_from_data] *)

Definition _make_url_from_data (data : dict) : result string :=
  let host := dict_get data CONF_HOST in
  if truthy host then Ok (py_str host)
  else
    p ← dict_getitem data CONF_PROTOCOL;
    protocol ← PROTOCOL_MAP_getitem p;
    address ← dict_getitem data CONF_ADDRESS;
    Ok (protocol +:+ py_str address).

(** ** The device controller client

    [upb_lib] is an external library.  What the validator observes of a
    client object: whether its configuration is accepted, the network id it
    reports, and how long after [connect] it invokes the connected callback,
    if ever. *)
Record UpbPim := {
  config_ok : bool;
  network_id : string;
  connected_after : option nat;
}.

(** The state of a flow object: [self.importing] and the unique id of the
    flow's context. *)
Record ConfigFlow := {
  importing : bool;
  unique_id : option string;
}.

Record ConfigEntry := {
  entry_unique_id : option string;
  entry_title : value;
  entry_data : dict;
}.

Inductive FlowResult :=
| FormResult (step_id : string) (errors : gmap string string)
| AbortResult (reason : string)
| CreateEntryResult (title : value) (data : dict).

#[global] Instance FlowResult_eq_dec : EqDecision FlowResult.
Proof. solve_decision. Defined.

(** What the module takes from outside the repository: the constructor of
    the client, and [urllib.parse.urlparse(x).hostname]. *)
Class External := {
  upb_lib_UpbPim : string → value → UpbPim;
  urlparse_hostname : value → result (option string);
}.

Section config_flow.
Context {E : External}.

(** [with suppress(TimeoutError): async with timeout(deadline): await
    connected_event.wait()], started when [connect] returns.  The wait ends
    when the callback sets the event or when the deadline expires, whichever
    comes first; the value is [connected_event.is_set()] at that moment (an
    event set at the very instant of the deadline counts as set: the code
    tests the event, not the timeout). *)
Definition wait_connected (upb : UpbPim) (deadline : nat) : M bool :=
  match connected_after upb with
  | Some t =>
      if bool_decide (t ≤ deadline)%nat then tell (EvWait t);; mret true
      else tell (EvWait deadline);; mret false
  | None => tell (EvWait deadline);; mret false
  end.

Definition _validate_input (data : dict) : M (string * dict) :=
  tell (EvValidateInput data);;
  let file_path := dict_get data CONF_FILE_PATH in
  url ← lift (_make_url_from_data data);
  let upb := upb_lib_UpbPim url file_path in
  tell (EvUpbPim url file_path);;
  if negb (config_ok upb) then
    tell (EvLogError "Missing or invalid UPB file: %s" [py_str file_path]);;
    raise InvalidUpbFile
  else
    tell EvConnect;;
    connected ← wait_connected upb VALIDATE_TIMEOUT;
    tell EvDisconnect;;
    if negb connected then
      tell (EvLogError
              "Timed out after %d seconds trying to connect with UPB PIM at %s"
              [pretty VALIDATE_TIMEOUT; url]);;
      raise CannotConnect
    else
      mret (network_id upb,
            <["title" := VStr "UPB"]>
              (<[CONF_HOST := VStr url]>
                 (<[CONF_FILE_PATH := file_path]> ∅))).

(** *** Helpers of the flow base class ([homeassistant.config_entries] and
    [homeassistant.data_entry_flow]) *)

(** Modelled from the spec: [async_abort] of the flow base class, which is
    not among the sources; the abort outcome, with its reason. *)
Definition async_abort (reason : string) : FlowResult := AbortResult reason.

(** Modelled from the spec: [async_show_form] of the flow base class, which
    is not among the sources; the form shown again, with the errors so far.
    The schema of the form is always [DATA_SCHEMA] and is left out. *)
Definition async_show_form (step_id : string) (errors : gmap string string)
  : FlowResult := FormResult step_id errors.

(** Modelled from the spec: [async_create_entry] of the flow base class,
    which is not among the sources; the record to persist. *)
Definition async_create_entry (title : value) (data : dict) : FlowResult :=
  CreateEntryResult title data.

(** Modelled from the spec: [async_set_unique_id] of the flow base class,
    which is not among the sources.  It records the identifier the created
    record will be keyed by. *)
Definition async_set_unique_id (self : ConfigFlow) (uid : string) : ConfigFlow :=
  {| importing := importing self; unique_id := Some uid |}.

(** Modelled from the spec: [_abort_if_unique_id_configured] of the flow base
    class, which is not among the sources.  If the identifier already
    corresponds to an existing registration the flow is aborted with
    ["already_configured"]. *)
Definition _abort_if_unique_id_configured
    (entries : list ConfigEntry) (self : ConfigFlow) : result unit :=
  if bool_decide (Exists (λ entry, entry_unique_id entry = unique_id self) entries)
  then Raise (AbortFlow "already_configured")
  else Ok tt.

(** *** [ConfigFlow._url_already_configured] *)

Fixpoint existing_hosts (entries : list ConfigEntry)
  : result (gset (option string)) :=
  match entries with
  | [] => Ok ∅
  | entry :: rest =>
      host ← dict_getitem (entry_data entry) CONF_HOST;
      h ← urlparse_hostname host;
      hs ← existing_hosts rest;
      Ok ({[ h ]} ∪ hs)
  end.

Definition _url_already_configured
    (entries : list ConfigEntry) (url : string) : result bool :=
  hosts ← existing_hosts entries;
  h ← urlparse_hostname (VStr url);
  Ok (bool_decide (h ∈ hosts)).

(** *** [ConfigFlow.async_step_user] *)

(** The body of the [try] statement: [inl] is the [return] inside it, [inr]
    the values bound on normal completion. *)
Definition try_body (entries : list ConfigEntry) (user_input : dict)
  : M (FlowResult + string * dict) :=
  url ← lift (_make_url_from_data user_input);
  configured ← lift (_url_already_configured entries url);
  if (configured : bool) then mret (inl (async_abort "already_configured"))
  else
    r ← _validate_input user_input;
    mret (inr r).

(** The [except] clauses. *)
Definition handle_exception (e : exn) (errors : gmap string string)
  : gmap string string :=
  match e with
  | CannotConnect => <["base" := "cannot_connect"]> errors
  | InvalidUpbFile => <["base" := "invalid_upb_file"]> errors
  | _ => <["base" := "unknown"]> errors
  end.

Definition create_entry (self : ConfigFlow) (info user_input : dict)
  : result FlowResult :=
  if importing self then
    title ← dict_getitem info "title";
    Ok (async_create_entry title user_input)
  else
    title ← dict_getitem info "title";
    host ← dict_getitem info CONF_HOST;
    file_path ← dict_getitem user_input CONF_FILE_PATH;
    Ok (async_create_entry title
          (<[CONF_HOST := host]> (<[CONF_FILE_PATH := file_path]> ∅))).

(** The value is the flow object after the step, what the step returned or
    raised, and the events of the validator during the step.  The record
    that the catch-all handler writes to the log is not among the events. *)
Definition async_step_user
    (entries : list ConfigEntry) (self : ConfigFlow) (user_input : option dict)
  : ConfigFlow * result FlowResult * list event :=
  let errors : gmap string string := ∅ in
  match user_input with
  | Some user_input =>
      match try_body entries user_input with
      | (Ok (inl returned), tr) => (self, Ok returned, tr)
      | (Ok (inr (nid, info)), tr) =>
          match errors !! "base" with
          | None =>
              let self := async_set_unique_id self nid in
              (self,
               (_abort_if_unique_id_configured entries self;;
                create_entry self info user_input),
               tr)
          | Some _ => (self, Ok (async_show_form "user" errors), tr)
          end
      | (Raise e, tr) =>
          let errors := handle_exception e errors in
          match errors !! "base" with
          | None => (self, Raise e, tr)
          | Some _ => (self, Ok (async_show_form "user" errors), tr)
          end
      end
  | None => (self, Ok (async_show_form "user" errors), [])
  end.

(** *** [ConfigFlow.__init__] and [ConfigFlow.async_step_import] *)

Definition __init__ : ConfigFlow :=
  {| importing := false; unique_id := None |}.

Definition async_step_import
    (entries : list ConfigEntry) (self : ConfigFlow) (user_input : dict)
  : ConfigFlow * result FlowResult * list event :=
  let self := {| importing := true; unique_id := unique_id self |} in
  async_step_user entries self (Some user_input).

(** *** The flow manager *)

(** Modelled from the spec: the manager that drives a flow, which is not
    among the sources.  A step that raises [AbortFlow] ends the flow with an
    abort of that reason. *)
Definition handle_step (r : result FlowResult) : result FlowResult :=
  match r with
  | Raise (AbortFlow reason) => Ok (AbortResult reason)
  | _ => r
  end.

(** Modelled from the spec: the registration store, which is not among the
    sources.  A step that creates an entry adds a record keyed by the flow's
    unique id to the store. *)
Definition finish_flow
    (entries : list ConfigEntry) (self : ConfigFlow) (r : result FlowResult)
  : list ConfigEntry :=
  match handle_step r with
  | Ok (CreateEntryResult title data) =>
      entries ++ [{| entry_unique_id := unique_id self;
                     entry_title := title;
                     entry_data := data |}]
  | _ => entries
  end.

End config_flow.

(** ** The registration store over time

    One step of the store: some flow object handles one submission, through
    either entry point, against some behaviour of the outside world; or a
    record is deleted by the management outside the flow. *)
Inductive store_step (entries : list ConfigEntry) : list ConfigEntry → Prop :=
| step_user (E : External) (self : ConfigFlow) (user_input : option dict) :
    store_step entries
      (let '(self', r, _) := async_step_user entries self user_input in
       finish_flow entries self' r)
| step_import (E : External) (self : ConfigFlow) (user_input : dict) :
    store_step entries
      (let '(self', r, _) := async_step_import entries self user_input in
       finish_flow entries self' r)
| step_remove (i : nat) :
    store_step entries (delete i entries).

Inductive reachable : list ConfigEntry → Prop :=
| reachable_empty : reachable []
| reachable_step entries entries' :
    reachable entries → store_step entries entries' → reachable entries'.

(** The stores built, under one behaviour of the outside world, by
    user-driven flows and by imports of records that carry their URL in the
    [host] field. *)
Inductive flow_store {E : External} : list ConfigEntry → Prop :=
| flow_store_empty : flow_store []
| flow_store_user entries self user_input :
    flow_store entries →
    importing self = false →
    flow_store
      (let '(self', r, _) := async_step_user entries self user_input in
       finish_flow entries self' r)
| flow_store_import entries self user_input :
    flow_store entries →
    truthy (dict_get user_input CONF_HOST) = true →
    flow_store
      (let '(self', r, _) := async_step_import entries self user_input in
       finish_flow entries self' r)
| flow_store_remove entries i :
    flow_store entries → flow_store (delete i entries).

(** ** Observations on traces *)

(** Whether the connection is open after the events of a trace. *)
Definition connection_open (tr : list event) : bool :=
  foldl (λ (o : bool) ev,
           match ev with
           | EvConnect => true
           | EvDisconnect => false
           | _ => o
           end) false tr.

(** The time spent waiting in a trace. *)
Definition elapsed (tr : list event) : nat :=
  foldr (λ ev n, match ev with EvWait t => t + n | _ => n end)%nat 0%nat tr.

(** ** A model of [urllib.parse.urlparse(url).hostname]

    After [urlsplit] and the [hostname] property of CPython 3.8's
    [Lib/urllib/parse.py], for strings of ASCII characters.  Later versions
    differ on hosts in brackets (which they validate), on blanks and control
    characters (which they strip) and on schemes that do not start with a
    letter; the properties below that rest on this model are stated for
    URLs on which the versions agree. *)
Module urllib.

Definition scheme_char (a : ascii) : bool :=
  let n := nat_of_ascii a in
  ((65 <=? n) && (n <=? 90) || (97 <=? n) && (n <=? 122)
   || (48 <=? n) && (n <=? 57)
   || bool_decide (a = "+"%char) || bool_decide (a = "-"%char)
   || bool_decide (a = "."%char))%nat.

Definition digit_char (a : ascii) : bool :=
  let n := nat_of_ascii a in ((48 <=? n) && (n <=? 57))%nat.

Definition lower_char (a : ascii) : ascii :=
  let n := nat_of_ascii a in
  if ((65 <=? n) && (n <=? 90))%nat then ascii_of_nat (n + 32) else a.

Fixpoint string_forallb (p : ascii → bool) (s : string) : bool :=
  match s with
  | EmptyString => true
  | String a s' => p a && string_forallb p s'
  end.

Fixpoint lower (s : string) : string :=
  match s with
  | EmptyString => EmptyString
  | String a s' => String (lower_char a) (lower s')
  end.

(** [s.partition(c)]: the text before the first [c] and, when there is one,
    the text after it. *)
Fixpoint partition (c : ascii) (s : string) : string * option string :=
  match s with
  | EmptyString => (EmptyString, None)
  | String a s' =>
      if bool_decide (a = c) then (EmptyString, Some s')
      else let '(before, after) := partition c s' in (String a before, after)
  end.

(** [s.rpartition(c)[2]]: the text after the last [c], all of [s] when
    there is none; [acc] is the answer for the text read so far. *)
Fixpoint after_last (c : ascii) (s acc : string) : string :=
  match s with
  | EmptyString => acc
  | String a s' => after_last c s' (if bool_decide (a = c) then s' else acc)
  end.

(** The longest prefix with no character in [p], and the rest. *)
Fixpoint take_until (p : ascii → bool) (s : string) : string * string :=
  match s with
  | EmptyString => (EmptyString, EmptyString)
  | String a s' =>
      if p a then (EmptyString, s)
      else let '(x, r) := take_until p s' in (String a x, r)
  end.

Definition contains (c : ascii) (s : string) : bool :=
  negb (string_forallb (λ a, negb (bool_decide (a = c))) s).

(** The url once its scheme is removed: [url[:i]] is a scheme when it is
    not empty, has scheme characters only and the rest is not a port
    number. *)
Definition strip_scheme (url : string) : string :=
  match partition ":" url with
  | (before, Some rest) =>
      if negb (bool_decide (before = ""))
         && string_forallb scheme_char before
         && (bool_decide (rest = "") || negb (string_forallb digit_char rest))
      then rest
      else url
  | (_, None) => url
  end.

Definition netloc_delim (a : ascii) : bool :=
  bool_decide (a = "/"%char) || bool_decide (a = "?"%char)
  || bool_decide (a = "#"%char).

(** [urlsplit(url).netloc] *)
Definition netloc (url : string) : result string :=
  match strip_scheme url with
  | String "/" (String "/" rest) =>
      let nl := fst (take_until netloc_delim rest) in
      if contains "[" nl && negb (contains "]" nl)
         || contains "]" nl && negb (contains "[" nl)
      then Raise (ValueError "Invalid IPv6 URL")
      else Ok nl
  | _ => Ok ""
  end.

(** The [hostname] property, from the netloc. *)
Definition hostname_of_netloc (nl : string) : option string :=
  let hostinfo := after_last "@" nl nl in
  let hostname :=
    match partition "[" hostinfo with
    | (_, Some bracketed) => fst (partition "]" bracketed)
    | (_, None) => fst (partition ":" hostinfo)
    end in
  if bool_decide (hostname = "") then None
  else
    match partition "%" hostname with
    | (h, Some zone) => Some (lower h +:+ "%" +:+ zone)
    | (h, None) => Some (lower h)
    end.

(** [urlparse(x).hostname]; [urlparse(None)] parses the empty string. *)
Definition hostname (x : value) : result (option string) :=
  match x with
  | VNone => Ok None
  | VStr url => nl ← netloc url; Ok (hostname_of_netloc nl)
  end.

End urllib.

(** The outside world with this model of [urlparse] and a given client. *)
Definition py_external (client : string → value → UpbPim) : External :=
  {| upb_lib_UpbPim := client; urlparse_hostname := urllib.hostname |}.

(** ** URLs that differ in scheme, port, path or letter case

    A URL written [scheme://host], [scheme://host:port] with a path after
    it or none. *)
Record url_parts := {
  up_scheme : string;
  up_host : string;
  up_port : option string;
  up_path : string;
}.

Definition port_text (port : option string) : string :=
  match port with
  | Some digits => String ":" digits
  | None => ""
  end.

Definition compose_url (p : url_parts) : string :=
  up_scheme p +:+ ("://" +:+ (up_host p +:+ (port_text (up_port p) +:+ up_path p))).

Definition letter_char (a : ascii) : bool :=
  let n := nat_of_ascii a in
  ((65 <=? n) && (n <=? 90) || (97 <=? n) && (n <=? 122))%nat.

(** The characters a host is written with: the printable ASCII characters
    other than the separators of a URL (letters, digits, dots, hyphens,
    underscores and the like; a host in brackets is not covered). *)
Definition host_char (a : ascii) : bool :=
  let n := nat_of_ascii a in
  ((33 <=? n) && (n <=? 126))%nat
  && negb (urllib.netloc_delim a)
  && negb (bool_decide (a = "@"%char))
  && negb (bool_decide (a = "["%char))
  && negb (bool_decide (a = "]"%char))
  && negb (bool_decide (a = ":"%char))
  && negb (bool_decide (a = "%"%char)).

Definition well_formed (p : url_parts) : bool :=
  match up_scheme p with
  | String a _ => letter_char a
  | EmptyString => false
  end
  && urllib.string_forallb urllib.scheme_char (up_scheme p)
  && negb (bool_decide (up_host p = ""))
  && urllib.string_forallb host_char (up_host p)
  && match up_port p with
     | Some digits => urllib.string_forallb urllib.digit_char digits
     | None => true
     end
  && match up_path p with
     | String a _ => bool_decide (a = "/"%char)
     | EmptyString => true
     end.

Definition named_parts : url_parts :=
  {| up_scheme := "tcp"; up_host := "pim.example";
     up_port := Some "2101"; up_path := "" |}.

Definition respelled_parts : url_parts :=
  {| up_scheme := "TCP"; up_host := "Pim.Example";
     up_port := Some "9999"; up_path := "/x" |}.

(** ** The effective URL in the words of the specification

    An explicit URL is present when the [host] field holds a string that is
    not empty.  The scheme of a transport kind is the text before [://]. *)
Definition transport_scheme (kind : value) : option string :=
  if decide (kind = VStr "TCP") then Some "tcp"
  else if decide (kind = VStr "Serial port") then Some "serial"
  else None.

Definition explicit_url (data : dict) : option string :=
  match data !! CONF_HOST with
  | Some (VStr h) => if decide (h = "") then None else Some h
  | _ => None
  end.

Definition effective_url (data : dict) : option string :=
  match explicit_url data with
  | Some h => Some h
  | None =>
      kind ← data !! CONF_PROTOCOL;
      scheme ← transport_scheme kind;
      address ← data !! CONF_ADDRESS;
      Some (scheme +:+ "://" +:+ py_str address)
  end.

(** ** Observations on the validator's use of the connection *)

(** Every [connect] of a trace is followed by a [disconnect]. *)
Definition connect_then_disconnect (tr : list event) : Prop :=
  ∀ i, tr !! i = Some EvConnect →
       ∃ j, (i < j)%nat ∧ tr !! j = Some EvDisconnect.

(** ** Scenarios *)

(** A client that accepts every configuration, reports network ["NET42"]
    and signals the connection after [t] time units, if at all. *)
Definition scenario_client (t : option nat) : string → value → UpbPim :=
  λ _ _, {| config_ok := true; network_id := "NET42"; connected_after := t |}.

(** A client that requires an export file. *)
Definition strict_client : string → value → UpbPim :=
  λ _ file_path,
    {| config_ok := truthy file_path; network_id := "NET42";
       connected_after := Some 2%nat |}.

Definition scenario_input : dict :=
  <[CONF_PROTOCOL := VStr "TCP"]>
    (<[CONF_ADDRESS := VStr "192.0.2.5:2101"]>
       (<[CONF_FILE_PATH := VStr ""]> ∅)).

Definition scenario_data : dict :=
  <[CONF_HOST := VStr "tcp://192.0.2.5:2101"]>
    (<[CONF_FILE_PATH := VStr ""]> ∅).

Definition scenario_entry : ConfigEntry :=
  {| entry_unique_id := Some "NET42";
     entry_title := VStr "UPB";
     entry_data := scenario_data |}.

(** The same device submitted under another address. *)
Definition moved_input : dict :=
  <[CONF_PROTOCOL := VStr "TCP"]>
    (<[CONF_ADDRESS := VStr "192.0.2.9:2101"]>
       (<[CONF_FILE_PATH := VStr ""]> ∅)).

(** The same host under another scheme, port, path and letter case. *)
Definition respelled_input : dict :=
  <[CONF_HOST := VStr "TCP://Pim.Example:9999/x"]>
    (<[CONF_FILE_PATH := VStr ""]> ∅).

Definition named_entry : ConfigEntry :=
  {| entry_unique_id := Some "NET42";
     entry_title := VStr "UPB";
     entry_data :=
       <[CONF_HOST := VStr "tcp://pim.example:2101"]>
         (<[CONF_FILE_PATH := VStr ""]> ∅) |}.

(** An imported record whose protocol is not one of the form's choices. *)
Definition udp_input : dict :=
  <[CONF_PROTOCOL := VStr "UDP"]>
    (<[CONF_ADDRESS := VStr "192.0.2.5:2101"]>
       (<[CONF_FILE_PATH := VStr ""]> ∅)).

(** ** The form schema

    [DATA_SCHEMA(raw)]: the schema of the form applied to a submission, as
    [voluptuous] applies a dictionary schema.  A key other than the three of
    the schema is refused; an absent [protocol] or [file_path] takes its
    default; [address] is required; the protocol is one of the two choices
    and the other two values are strings.  [None] stands for
    [vol.Invalid]. *)
Definition DATA_SCHEMA (raw : dict) : option dict :=
  let protocol := default (VStr "Serial port") (raw !! CONF_PROTOCOL) in
  let file_path := default (VStr "") (raw !! CONF_FILE_PATH) in
  if bool_decide
       (dom raw ⊆ ({[CONF_PROTOCOL; CONF_ADDRESS; CONF_FILE_PATH]} : gset string))
  then
    match protocol, raw !! CONF_ADDRESS, file_path with
    | VStr p, Some (VStr a), VStr f =>
        if bool_decide (p ∈ ["TCP"; "Serial port"]) then
          Some (<[CONF_PROTOCOL := VStr p]>
                  (<[CONF_ADDRESS := VStr a]>
                     (<[CONF_FILE_PATH := VStr f]> ∅)))
        else None
    | _, _, _ => None
    end
  else None.

(** ** More scenarios *)

(** A record with its URL and nothing else. *)
Definition url_only_input : dict :=
  <[CONF_HOST := VStr "tcp://192.0.2.5:2101"]> ∅.

(** An address with a bracket that is not closed. *)
Definition bracket_input : dict :=
  <[CONF_PROTOCOL := VStr "TCP"]>
    (<[CONF_ADDRESS := VStr "[fe80::1"]>
       (<[CONF_FILE_PATH := VStr ""]> ∅)).

(** The record an import of [scenario_input] leaves in the store. *)
Definition imported_entry : ConfigEntry :=
  {| entry_unique_id := Some "NET42";
     entry_title := VStr "UPB";
     entry_data := scenario_input |}.

Definition serial_input (device : string) : dict :=
  <[CONF_PROTOCOL := VStr "Serial port"]>
    (<[CONF_ADDRESS := VStr device]>
       (<[CONF_FILE_PATH := VStr ""]> ∅)).

Definition serial_entry (device : string) : ConfigEntry :=
  {| entry_unique_id := Some "NET1";
     entry_title := VStr "UPB";
     entry_data :=
       <[CONF_HOST := VStr ("serial://" +:+ device)]>
         (<[CONF_FILE_PATH := VStr ""]> ∅) |}.

(** A client whose network id is the URL it was given, so that distinct
    URLs are distinct networks. *)
Definition url_client : string → value → UpbPim :=
  λ url _, {| config_ok := true; network_id := url;
              connected_after := Some 2%nat |}.

(** A client with a rejected configuration that would never connect. *)
Definition dead_client : string → value → UpbPim :=
  λ _ _, {| config_ok := false; network_id := "NET42";
            connected_after := None |}.

(** How many times an event occurs in a trace. *)
Definition occurrences (ev : event) (tr : list event) : nat :=
  length (filter (λ x, x = ev) tr).

(** ** The validator when it is interrupted

    [_validate_input] above is the validator for a client whose [connect]
    returns and for a wait that ends by the signal or by the deadline.  The
    code has no [try]/[finally] around the connection and suppresses nothing
    but the timeout, so two more things can end it: an exception out of
    [connect], and an exception other than the timeout that arrives at the
    [await] (the cancellation of the task, say) some time after the wait
    began. *)
Record interruption := {
  connect_raises : option exn;
  await_raises : option (nat * exn);
}.

(** When the wait of [wait_connected] ends. *)
Definition wait_end (upb : UpbPim) (deadline : nat) : nat :=
  match connected_after upb with
  | Some t => t `min` deadline
  | None => deadline
  end.

(** Whether an interruption takes effect: [connect] raises, or the
    exception arrives before the wait has ended. *)
Definition interrupted (upb : UpbPim) (i : interruption) (deadline : nat) : bool :=
  match connect_raises i, await_raises i with
  | Some _, _ => true
  | None, Some (s, _) => bool_decide (s < wait_end upb deadline)%nat
  | None, None => false
  end.

Section interruptible.
Context {E : External}.
Variable interruptions : string → value → interruption.

(** [upb.connect(_connected_callback)] *)
Definition connect_or_raise (i : interruption) : M unit :=
  tell EvConnect;;
  match connect_raises i with
  | Some e => raise e
  | None => mret tt
  end.

(** The wait of [wait_connected], unless an exception arrives first. *)
Definition wait_or_raise (upb : UpbPim) (i : interruption) (deadline : nat)
  : M bool :=
  match await_raises i with
  | Some (s, e) =>
      if bool_decide (s < wait_end upb deadline)%nat
      then tell (EvWait s);; raise e
      else wait_connected upb deadline
  | None => wait_connected upb deadline
  end.

Definition _validate_input_interruptible (data : dict) : M (string * dict) :=
  tell (EvValidateInput data);;
  let file_path := dict_get data CONF_FILE_PATH in
  url ← lift (_make_url_from_data data);
  let upb := upb_lib_UpbPim url file_path in
  let i := interruptions url file_path in
  tell (EvUpbPim url file_path);;
  if negb (config_ok upb) then
    tell (EvLogError "Missing or invalid UPB file: %s" [py_str file_path]);;
    raise InvalidUpbFile
  else
    connect_or_raise i;;
    connected ← wait_or_raise upb i VALIDATE_TIMEOUT;
    tell EvDisconnect;;
    if negb connected then
      tell (EvLogError
              "Timed out after %d seconds trying to connect with UPB PIM at %s"
              [pretty VALIDATE_TIMEOUT; url]);;
      raise CannotConnect
    else
      mret (network_id upb,
            <["title" := VStr "UPB"]>
              (<[CONF_HOST := VStr url]>
                 (<[CONF_FILE_PATH := file_path]> ∅))).

End interruptible.

(** ** Scenarios with an interrupted wait or an imported form record *)

(** The task is cancelled one time unit into the wait. *)
Definition cancelled_at_1 : string → value → interruption :=
  λ _ _, {| connect_raises := None;
            await_raises := Some (1%nat, ValueError "cancelled") |}.

(** [connect] raises. *)
Definition connect_fails : string → value → interruption :=
  λ _ _, {| connect_raises := Some (ValueError "connect failed");
            await_raises := None |}.

(** A record as the form sends it, for a host with a name. *)
Definition named_form_input : dict :=
  <[CONF_PROTOCOL := VStr "TCP"]>
    (<[CONF_ADDRESS := VStr "pim.example:2101"]>
       (<[CONF_FILE_PATH := VStr ""]> ∅)).

(** The same host with another port and letter case. *)
Definition respelled_form_input : dict :=
  <[CONF_PROTOCOL := VStr "TCP"]>
    (<[CONF_ADDRESS := VStr "Pim.Example:9999"]>
       (<[CONF_FILE_PATH := VStr ""]> ∅)).

Definition respelled_form_parts : url_parts :=
  {| up_scheme := "tcp"; up_host := "Pim.Example";
     up_port := Some "9999"; up_path := "" |}.

(** The store after the user-driven flow has registered [scenario_input]
    and an import has registered [moved_input], with a client whose network
    id is the URL. *)
Definition mixed_store : list ConfigEntry :=
  [ {| entry_unique_id := Some "tcp://192.0.2.5:2101";
       entry_title := VStr "UPB";
       entry_data := scenario_data |};
    {| entry_unique_id := Some "tcp://192.0.2.9:2101";
       entry_title := VStr "UPB";
       entry_data := moved_input |} ].

(** * Properties *)

(** A character that passes the test [H] is none of the characters the
    goal compares it with. *)
Ltac other_char H :=
  unfold urllib.netloc_delim; split_and?;
  repeat case_bool_decide; subst; try reflexivity;
  vm_compute in H; discriminate H.

Section properties.
Context {E : External}.

(** The dictionary returned by a successful validation. *)
Definition info_of (url : string) (file_path : value) : dict :=
  <["title" := VStr "UPB"]>
    (<[CONF_HOST := VStr url]> (<[CONF_FILE_PATH := file_path]> ∅)).

Definition timeout_log (url : string) : event :=
  EvLogError "Timed out after %d seconds trying to connect with UPB PIM at %s"
    [pretty VALIDATE_TIMEOUT; url].

Definition invalid_file_log (file_path : value) : event :=
  EvLogError "Missing or invalid UPB file: %s" [py_str file_path].

(** The four ways out of the validator. *)
Inductive validate_path (data : dict) : M (string * dict) → Prop :=
| path_no_url e :
    _make_url_from_data data = Raise e →
    validate_path data (Raise e, [EvValidateInput data])
| path_invalid_file url :
    _make_url_from_data data = Ok url →
    validate_path data
      (Raise InvalidUpbFile,
       [EvValidateInput data; EvUpbPim url (dict_get data CONF_FILE_PATH);
        invalid_file_log (dict_get data CONF_FILE_PATH)])
| path_timeout url :
    _make_url_from_data data = Ok url →
    validate_path data
      (Raise CannotConnect,
       [EvValidateInput data; EvUpbPim url (dict_get data CONF_FILE_PATH);
        EvConnect; EvWait VALIDATE_TIMEOUT; EvDisconnect; timeout_log url])
| path_connected url t :
    _make_url_from_data data = Ok url →
    (t ≤ VALIDATE_TIMEOUT)%nat →
    validate_path data
      (Ok (network_id (upb_lib_UpbPim url (dict_get data CONF_FILE_PATH)),
           info_of url (dict_get data CONF_FILE_PATH)),
       [EvValidateInput data; EvUpbPim url (dict_get data CONF_FILE_PATH);
        EvConnect; EvWait t; EvDisconnect]).

(** ** The validator, path by path *)

Lemma _validate_input_no_url data e :
  _make_url_from_data data = Raise e →
  _validate_input data = (Raise e, [EvValidateInput data]).
Proof. intros Hurl. unfold _validate_input. rewrite Hurl. reflexivity. Qed.

Lemma _validate_input_invalid_file data url :
  _make_url_from_data data = Ok url →
  config_ok (upb_lib_UpbPim url (dict_get data CONF_FILE_PATH)) = false →
  _validate_input data =
    (Raise InvalidUpbFile,
     [EvValidateInput data; EvUpbPim url (dict_get data CONF_FILE_PATH);
      invalid_file_log (dict_get data CONF_FILE_PATH)]).
Proof.
  intros Hurl Hcfg. unfold _validate_input. rewrite Hurl. cbn.
  rewrite Hcfg. reflexivity.
Qed.

Lemma _validate_input_connected data url t :
  _make_url_from_data data = Ok url →
  let upb := upb_lib_UpbPim url (dict_get data CONF_FILE_PATH) in
  config_ok upb = true →
  connected_after upb = Some t →
  (t ≤ VALIDATE_TIMEOUT)%nat →
  _validate_input data =
    (Ok (network_id upb, info_of url (dict_get data CONF_FILE_PATH)),
     [EvValidateInput data; EvUpbPim url (dict_get data CONF_FILE_PATH);
      EvConnect; EvWait t; EvDisconnect]).
Proof.
  intros Hurl upb Hcfg Hconn Ht. unfold _validate_input. rewrite Hurl. cbn.
  fold upb. rewrite Hcfg. cbn. unfold wait_connected. rewrite Hconn.
  rewrite bool_decide_true by done. reflexivity.
Qed.

Lemma _validate_input_timeout data url :
  _make_url_from_data data = Ok url →
  let upb := upb_lib_UpbPim url (dict_get data CONF_FILE_PATH) in
  config_ok upb = true →
  (∀ t, connected_after upb = Some t → (VALIDATE_TIMEOUT < t)%nat) →
  _validate_input data =
    (Raise CannotConnect,
     [EvValidateInput data; EvUpbPim url (dict_get data CONF_FILE_PATH);
      EvConnect; EvWait VALIDATE_TIMEOUT; EvDisconnect; timeout_log url]).
Proof.
  intros Hurl upb Hcfg Hconn. unfold _validate_input. rewrite Hurl. cbn.
  fold upb. rewrite Hcfg. cbn. unfold wait_connected.
  destruct (connected_after upb) as [t|] eqn:Ht; [|reflexivity].
  specialize (Hconn t eq_refl).
  rewrite bool_decide_false by lia. reflexivity.
Qed.

Lemma _validate_input_paths data : validate_path data (_validate_input data).
Proof.
  destruct (_make_url_from_data data) as [url|e] eqn:Hurl.
  - destruct (config_ok (upb_lib_UpbPim url (dict_get data CONF_FILE_PATH)))
      eqn:Hcfg.
    + destruct (connected_after (upb_lib_UpbPim url (dict_get data CONF_FILE_PATH)))
        as [t|] eqn:Hconn.
      * destruct (decide (t ≤ VALIDATE_TIMEOUT)%nat) as [Ht|Ht].
        -- rewrite (_validate_input_connected data url t) by done.
           by apply path_connected.
        -- rewrite (_validate_input_timeout data url); [by apply path_timeout|done|done|].
           intros t' Ht'. rewrite Hconn in Ht'. simplify_eq. lia.
      * rewrite (_validate_input_timeout data url); [by apply path_timeout|done|done|].
        intros t' Ht'. rewrite Hconn in Ht'. discriminate.
    + rewrite (_validate_input_invalid_file data url) by done.
      by apply path_invalid_file.
  - rewrite (_validate_input_no_url data e) by done. by apply path_no_url.
Qed.

(** ** The URL *)

Lemma _make_url_from_data_raises data e :
  _make_url_from_data data = Raise e → ∃ k, e = KeyError k.
Proof.
  unfold _make_url_from_data, dict_getitem, PROTOCOL_MAP_getitem.
  destruct (truthy _); [done|].
  destruct (data !! CONF_PROTOCOL) as [[|p]|]; cbn; try (intros [= <-]; eauto).
  destruct (PROTOCOL_MAP !! p); cbn; [|intros [= <-]; eauto].
  destruct (data !! CONF_ADDRESS); cbn; [done|intros [= <-]; eauto].
Qed.

Lemma PROTOCOL_MAP_lookup p :
  PROTOCOL_MAP !! p =
    if decide (p = "TCP") then Some "tcp://"
    else if decide (p = "Serial port") then Some "serial://" else None.
Proof.
  unfold PROTOCOL_MAP. rewrite lookup_insert.
  destruct (decide ("TCP" = p)) as [<-|Hne]; [done|].
  rewrite decide_False by done. rewrite lookup_insert.
  destruct (decide ("Serial port" = p)) as [<-|Hne']; [done|].
  by rewrite decide_False by done.
Qed.

Lemma PROTOCOL_MAP_getitem_scheme kind :
  PROTOCOL_MAP_getitem kind =
    match transport_scheme kind with
    | Some scheme => Ok (scheme +:+ "://")
    | None => Raise (KeyError kind)
    end.
Proof.
  unfold PROTOCOL_MAP_getitem, transport_scheme.
  destruct kind as [|p]; [done|].
  rewrite PROTOCOL_MAP_lookup.
  destruct (decide (p = "TCP")) as [->|Hne]; [done|].
  rewrite (decide_False (P := VStr p = VStr "TCP")) by congruence.
  destruct (decide (p = "Serial port")) as [->|Hne']; [done|].
  by rewrite (decide_False (P := VStr p = VStr "Serial port")) by congruence.
Qed.

Lemma explicit_url_truthy data :
  match explicit_url data with
  | Some h => truthy (dict_get data CONF_HOST) = true
              ∧ py_str (dict_get data CONF_HOST) = h
  | None => truthy (dict_get data CONF_HOST) = false
  end.
Proof.
  unfold explicit_url, dict_get.
  destruct (data !! CONF_HOST) as [[|h]|]; cbn; try done.
  destruct (decide (h = "")) as [->|Hne]; [done|].
  by rewrite bool_decide_false by done.
Qed.

Lemma string_app_nil (b : string) : "" +:+ b = b.
Proof. reflexivity. Qed.

Lemma string_app_cons x (a b : string) : String x a +:+ b = String x (a +:+ b).
Proof. reflexivity. Qed.

Lemma string_app_assoc (a b c : string) : (a +:+ b) +:+ c = a +:+ (b +:+ c).
Proof.
  induction a as [|x a IH]; [done|].
  by rewrite !string_app_cons, IH.
Qed.

Lemma _make_url_from_data_effective data :
  _make_url_from_data data =
    match effective_url data with
    | Some url => Ok url
    | None =>
        if truthy (dict_get data CONF_HOST) then Ok ""
        else
          match data !! CONF_PROTOCOL with
          | None => Raise (KeyError (VStr CONF_PROTOCOL))
          | Some kind =>
              match transport_scheme kind with
              | None => Raise (KeyError kind)
              | Some _ => Raise (KeyError (VStr CONF_ADDRESS))
              end
          end
    end.
Proof.
  unfold _make_url_from_data, effective_url.
  pose proof (explicit_url_truthy data) as Hx.
  destruct (explicit_url data) as [h|].
  - destruct Hx as [-> ->]. done.
  - rewrite Hx. unfold dict_getitem.
    destruct (data !! CONF_PROTOCOL) as [kind|]; cbn; [|done].
    rewrite PROTOCOL_MAP_getitem_scheme.
    destruct (transport_scheme kind) as [scheme|]; cbn; [|done].
    destruct (data !! CONF_ADDRESS) as [address|]; cbn; [|done].
    by rewrite string_app_assoc.
Qed.

Lemma _make_url_from_data_ok data url :
  _make_url_from_data data = Ok url ↔ effective_url data = Some url.
Proof.
  rewrite _make_url_from_data_effective.
  pose proof (explicit_url_truthy data) as Hx.
  unfold effective_url in *.
  destruct (explicit_url data) as [h|]; [split; congruence|].
  rewrite Hx.
  destruct (data !! CONF_PROTOCOL) as [kind|]; cbn; [|done].
  destruct (transport_scheme kind); cbn; [|done].
  destruct (data !! CONF_ADDRESS); cbn; [split; congruence|done].
Qed.

(** C7. For every input the URL the code builds, and hands to the client
    it connects with, is the effective URL of the specification: the
    explicit URL when one is present, otherwise [scheme://address] with the
    scheme given by TCP ↦ tcp, Serial port ↦ serial. *)
Theorem make_url_is_effective_url (data : dict) :
  (∀ url, _make_url_from_data data = Ok url ↔ effective_url data = Some url)
  ∧ (∀ url file_path,
        EvUpbPim url file_path ∈ snd (_validate_input data) →
        effective_url data = Some url).
Proof.
  split; [apply _make_url_from_data_ok|].
  intros url file_path Hin.
  destruct (_validate_input_paths data) as [e Hurl|u Hurl|u Hurl|u t Hurl Ht];
    cbn in Hin; apply _make_url_from_data_ok;
    repeat (apply elem_of_cons in Hin as [Hin|Hin]; [try done; by simplify_eq|]);
    by apply elem_of_nil in Hin.
Qed.

(** ** The step of the flow, path by path *)

Lemma handle_exception_base e :
  handle_exception e ∅ !! "base" =
    Some match e with
         | CannotConnect => "cannot_connect"
         | InvalidUpbFile => "invalid_upb_file"
         | _ => "unknown"
         end.
Proof. destruct e; apply lookup_insert_eq. Qed.

Lemma step_user_no_input entries self :
  async_step_user entries self None = (self, Ok (FormResult "user" ∅), []).
Proof. reflexivity. Qed.

Lemma step_user_try_raises entries self data e tr :
  try_body entries data = (Raise e, tr) →
  async_step_user entries self (Some data) =
    (self, Ok (FormResult "user" (handle_exception e ∅)), tr).
Proof.
  intros Htry. unfold async_step_user. rewrite Htry.
  by rewrite handle_exception_base.
Qed.

Lemma step_user_no_url entries self data e :
  _make_url_from_data data = Raise e →
  async_step_user entries self (Some data) =
    (self, Ok (FormResult "user" (<["base" := "unknown"]> ∅)), []).
Proof.
  intros Hurl. rewrite (step_user_try_raises entries self data e []).
  - by destruct (_make_url_from_data_raises _ _ Hurl) as [k ->].
  - unfold try_body. by rewrite Hurl.
Qed.

Lemma step_user_duplicate entries self data url :
  _make_url_from_data data = Ok url →
  _url_already_configured entries url = Ok true →
  async_step_user entries self (Some data) =
    (self, Ok (AbortResult "already_configured"), []).
Proof.
  intros Hurl Hdup. unfold async_step_user, try_body.
  rewrite Hurl. cbn. by rewrite Hdup.
Qed.

Lemma try_body_validate entries data url :
  _make_url_from_data data = Ok url →
  _url_already_configured entries url = Ok false →
  try_body entries data =
    match _validate_input data with
    | (Ok r, tr) => (Ok (inr r), tr)
    | (Raise e, tr) => (Raise e, tr)
    end.
Proof.
  intros Hurl Hdup. unfold try_body. rewrite Hurl.
  destruct (_validate_input data) as [[r|e] tr]; cbn; rewrite Hdup; cbn;
    [by rewrite app_nil_r|done].
Qed.

Lemma step_user_validate_raises entries self data url e tr :
  _make_url_from_data data = Ok url →
  _url_already_configured entries url = Ok false →
  _validate_input data = (Raise e, tr) →
  async_step_user entries self (Some data) =
    (self, Ok (FormResult "user" (handle_exception e ∅)), tr).
Proof.
  intros Hurl Hdup Hval. apply step_user_try_raises.
  rewrite (try_body_validate _ _ url) by done. by rewrite Hval.
Qed.

Lemma step_user_validated entries self data url nid info tr :
  _make_url_from_data data = Ok url →
  _url_already_configured entries url = Ok false →
  _validate_input data = (Ok (nid, info), tr) →
  async_step_user entries self (Some data) =
    (async_set_unique_id self nid,
     (_abort_if_unique_id_configured entries (async_set_unique_id self nid);;
      create_entry (async_set_unique_id self nid) info data),
     tr).
Proof.
  intros Hurl Hdup Hval. unfold async_step_user.
  rewrite (try_body_validate _ _ url) by done. by rewrite Hval.
Qed.

Lemma abort_if_configured_fresh entries self :
  ¬ Exists (λ entry, entry_unique_id entry = unique_id self) entries →
  _abort_if_unique_id_configured entries self = Ok tt.
Proof.
  intros Hfresh. unfold _abort_if_unique_id_configured.
  by rewrite bool_decide_false.
Qed.

Lemma abort_if_configured_known entries self :
  Exists (λ entry, entry_unique_id entry = unique_id self) entries →
  _abort_if_unique_id_configured entries self =
    Raise (AbortFlow "already_configured").
Proof.
  intros Hknown. unfold _abort_if_unique_id_configured.
  by rewrite bool_decide_true.
Qed.

Lemma create_entry_user self url file_path data fp :
  importing self = false →
  data !! CONF_FILE_PATH = Some fp →
  create_entry self (info_of url file_path) data =
    Ok (CreateEntryResult (VStr "UPB")
          (<[CONF_HOST := VStr url]> (<[CONF_FILE_PATH := fp]> ∅))).
Proof.
  intros Himp Hfp. unfold create_entry, dict_getitem. rewrite Himp, Hfp.
  reflexivity.
Qed.

Lemma create_entry_import self url file_path data :
  importing self = true →
  create_entry self (info_of url file_path) data =
    Ok (CreateEntryResult (VStr "UPB") data).
Proof. intros Himp. unfold create_entry. rewrite Himp. reflexivity. Qed.

(** ** Error paths of the flow *)

(** C10. An input with no explicit host and a protocol outside the table
    makes the table lookup raise [KeyError]; the catch-all handler turns it
    into the ["unknown"] error and the form is shown again, through the
    import entry point as well as through the user step. *)
Theorem unknown_protocol_shows_form
    (entries : list ConfigEntry) (self : ConfigFlow) (data : dict)
    (kind : value) :
  truthy (dict_get data CONF_HOST) = false →
  data !! CONF_PROTOCOL = Some kind →
  kind ≠ VStr "TCP" →
  kind ≠ VStr "Serial port" →
  _make_url_from_data data = Raise (KeyError kind)
  ∧ async_step_import entries self data =
      ({| importing := true; unique_id := unique_id self |},
       Ok (FormResult "user" (<["base" := "unknown"]> ∅)), [])
  ∧ async_step_user entries self (Some data) =
      (self, Ok (FormResult "user" (<["base" := "unknown"]> ∅)), []).
Proof.
  intros Hhost Hkind Htcp Hserial.
  assert (_make_url_from_data data = Raise (KeyError kind)) as Hurl.
  { unfold _make_url_from_data, dict_getitem. rewrite Hhost, Hkind. cbn.
    rewrite PROTOCOL_MAP_getitem_scheme. unfold transport_scheme.
    by rewrite !decide_False by done. }
  split; [done|]. split.
  - unfold async_step_import. by erewrite step_user_no_url.
  - by erewrite step_user_no_url.
Qed.

Lemma existing_hosts_elem entries hosts entry host h :
  existing_hosts entries = Ok hosts →
  entry ∈ entries →
  entry_data entry !! CONF_HOST = Some host →
  urlparse_hostname host = Ok h →
  h ∈ hosts.
Proof.
  revert hosts. induction entries as [|e rest IH]; intros hosts Hall Hin Hhost Hh.
  { by apply elem_of_nil in Hin. }
  cbn in Hall. unfold dict_getitem in Hall.
  destruct (entry_data e !! CONF_HOST) as [host'|] eqn:Hhost'; [|done].
  cbn in Hall.
  destruct (urlparse_hostname host') as [h'|] eqn:Hh'; [|done]. cbn in Hall.
  destruct (existing_hosts rest) as [hs|] eqn:Hrest; [|done]. cbn in Hall.
  injection Hall as <-.
  apply elem_of_cons in Hin as [->|Hin].
  - rewrite Hhost in Hhost'. injection Hhost' as <-.
    rewrite Hh in Hh'. injection Hh' as <-. set_solver.
  - apply elem_of_union_r. by apply IH.
Qed.

Lemma url_already_configured_elem entries hosts entry host h url :
  existing_hosts entries = Ok hosts →
  entry ∈ entries →
  entry_data entry !! CONF_HOST = Some host →
  urlparse_hostname host = Ok h →
  urlparse_hostname (VStr url) = Ok h →
  _url_already_configured entries url = Ok true.
Proof.
  intros Hall Hin Hhost Hh Hurl. unfold _url_already_configured.
  rewrite Hall. cbn. rewrite Hurl. cbn.
  rewrite bool_decide_true; [done|]. by eapply existing_hosts_elem.
Qed.

(** C2. When the hostname of the input's effective URL is the hostname of
    the host of an entry of the store, the step aborts with
    [already_configured] and its trace is empty: the validator is not
    called, no client is built and no connection is attempted.  The store
    is one whose entries all have a host that parses. *)
Theorem duplicate_host_aborts_without_validation
    (entries : list ConfigEntry) (self : ConfigFlow) (data : dict)
    (url : string) (h : option string) (hosts : gset (option string))
    (entry : ConfigEntry) (host : value) :
  _make_url_from_data data = Ok url →
  urlparse_hostname (VStr url) = Ok h →
  existing_hosts entries = Ok hosts →
  entry ∈ entries →
  entry_data entry !! CONF_HOST = Some host →
  urlparse_hostname host = Ok h →
  async_step_user entries self (Some data) =
    (self, Ok (AbortResult "already_configured"), [])
  ∧ async_step_import entries self data =
      ({| importing := true; unique_id := unique_id self |},
       Ok (AbortResult "already_configured"), []).
Proof.
  intros Hurl Hh Hall Hin Hhost Hhh.
  assert (_url_already_configured entries url = Ok true) as Hdup
    by by eapply url_already_configured_elem.
  split; [|unfold async_step_import]; by eapply step_user_duplicate.
Qed.

(** C4. When the client reports that its configuration is not ok (the
    export file is missing or invalid), validation raises [InvalidUpbFile]
    before any [connect], and the flow shows the form with the
    [invalid_upb_file] error. *)
Theorem invalid_file_fails_without_connecting
    (entries : list ConfigEntry) (self : ConfigFlow) (data : dict)
    (url : string) :
  _make_url_from_data data = Ok url →
  config_ok (upb_lib_UpbPim url (dict_get data CONF_FILE_PATH)) = false →
  (fst (_validate_input data)) = Raise InvalidUpbFile
  ∧ (EvConnect ∉ snd (_validate_input data))
  ∧ (_url_already_configured entries url = Ok false →
     (fst (async_step_user entries self (Some data))) =
       (self, Ok (FormResult "user" (<["base" := "invalid_upb_file"]> ∅)))
     ∧ (EvConnect ∉ snd (async_step_user entries self (Some data)))).
Proof.
  intros Hurl Hcfg.
  pose proof (_validate_input_invalid_file data url Hurl Hcfg) as Hval.
  assert (EvConnect ∉ (snd (_validate_input data))) as Hno.
  { rewrite Hval. cbn. unfold invalid_file_log.
    rewrite !not_elem_of_cons. split_and!; try done. apply not_elem_of_nil. }
  split; [by rewrite Hval|]. split; [done|].
  intros Hdup.
  rewrite (step_user_validate_raises entries self data url _ _ Hurl Hdup Hval).
  split; [done|]. cbn. by rewrite Hval in Hno.
Qed.

(** C3. When the connected signal does not come within the deadline of 15
    time units, validation raises [CannotConnect] after waiting exactly the
    deadline, [disconnect] having been called before the failure, and the
    flow shows the form with the [cannot_connect] error. *)
Theorem timeout_fails_after_deadline
    (entries : list ConfigEntry) (self : ConfigFlow) (data : dict)
    (url : string) :
  _make_url_from_data data = Ok url →
  _url_already_configured entries url = Ok false →
  config_ok (upb_lib_UpbPim url (dict_get data CONF_FILE_PATH)) = true →
  (∀ t,
     connected_after (upb_lib_UpbPim url (dict_get data CONF_FILE_PATH)) = Some t →
     (VALIDATE_TIMEOUT < t)%nat) →
  ∃ tr,
    async_step_user entries self (Some data) =
      (self, Ok (FormResult "user" (<["base" := "cannot_connect"]> ∅)), tr)
    ∧ _validate_input data = (Raise CannotConnect, tr)
    ∧ tr = [EvValidateInput data; EvUpbPim url (dict_get data CONF_FILE_PATH);
            EvConnect; EvWait 15; EvDisconnect; timeout_log url]
    ∧ elapsed tr = 15%nat
    ∧ connection_open tr = false.
Proof.
  intros Hurl Hdup Hcfg Hconn.
  pose proof (_validate_input_timeout data url Hurl Hcfg Hconn) as Hval.
  eexists. split; [|split; [exact Hval|]].
  - by rewrite (step_user_validate_raises entries self data url _ _ Hurl Hdup Hval).
  - done.
Qed.

(** ** Cleanup *)

Lemma step_user_trace entries self user_input :
  (snd (async_step_user entries self user_input)) = []
  ∨ ∃ data, user_input = Some data
            ∧ (snd (async_step_user entries self user_input)) = (snd (_validate_input data)).
Proof.
  destruct user_input as [data|]; [|by left].
  destruct (_make_url_from_data data) as [url|e] eqn:Hurl.
  2: { left. by erewrite step_user_no_url. }
  destruct (_url_already_configured entries url) as [[|]|e] eqn:Hdup.
  - left. by erewrite step_user_duplicate.
  - right. exists data. split; [done|].
    destruct (_validate_input data) as [[[nid info]|e] tr] eqn:Hval.
    + by erewrite step_user_validated.
    + by erewrite step_user_validate_raises.
  - left. rewrite (step_user_try_raises entries self data e []); [done|].
    unfold try_body. rewrite Hurl. cbn. by rewrite Hdup.
Qed.

Lemma validate_trace_cleanup data :
  connect_then_disconnect (snd (_validate_input data))
  ∧ connection_open (snd (_validate_input data)) = false.
Proof.
  destruct (_validate_input_paths data) as [e Hurl|u Hurl|u Hurl|u t Hurl Ht];
    (split; [|reflexivity]); intros i Hi; cbn in Hi;
    do 7 (try destruct i as [|i]); try discriminate Hi;
    exists 4%nat; (split; [lia|reflexivity]).
Qed.

(** ** Created records *)

Lemma validate_ok_inv data url nid info tr :
  _make_url_from_data data = Ok url →
  _validate_input data = (Ok (nid, info), tr) →
  nid = network_id (upb_lib_UpbPim url (dict_get data CONF_FILE_PATH))
  ∧ info = info_of url (dict_get data CONF_FILE_PATH).
Proof.
  intros Hurl Hval.
  destruct (_validate_input_paths data) as [e Hu|u Hu|u Hu|u t Hu Ht];
    try discriminate Hval.
  rewrite Hurl in Hu. by simplify_eq.
Qed.

(** C1. When validation succeeds, a record created by the user-driven flow
    has title ["UPB"], is keyed by the network id the client returned, and
    has the effective URL as its host; and the record is created whenever
    neither duplicate check fires (the form always supplies the file
    path). *)
Theorem user_flow_record
    (entries : list ConfigEntry) (self : ConfigFlow) (data : dict)
    (url nid : string) (info : dict) (tr : list event) :
  importing self = false →
  _make_url_from_data data = Ok url →
  _validate_input data = (Ok (nid, info), tr) →
  effective_url data = Some url
  ∧ nid = network_id (upb_lib_UpbPim url (dict_get data CONF_FILE_PATH))
  ∧ (∀ self' title d tr',
       async_step_user entries self (Some data) =
         (self', Ok (CreateEntryResult title d), tr') →
       title = VStr "UPB"
       ∧ unique_id self' = Some nid
       ∧ d !! CONF_HOST = Some (VStr url)
       ∧ finish_flow entries self' (Ok (CreateEntryResult title d)) =
           entries ++ [{| entry_unique_id := Some nid;
                          entry_title := VStr "UPB";
                          entry_data := d |}])
  ∧ (∀ fp,
       _url_already_configured entries url = Ok false →
       ¬ Exists (λ entry, entry_unique_id entry = Some nid) entries →
       data !! CONF_FILE_PATH = Some fp →
       async_step_user entries self (Some data) =
         (async_set_unique_id self nid,
          Ok (CreateEntryResult (VStr "UPB")
                (<[CONF_HOST := VStr url]> (<[CONF_FILE_PATH := fp]> ∅))),
          tr)).
Proof.
  intros Himp Hurl Hval.
  destruct (validate_ok_inv data url nid info tr Hurl Hval) as [Hnid Hinfo].
  split; [by apply _make_url_from_data_ok|]. split; [done|]. split.
  - intros self' title d tr' Hstep.
    destruct (_url_already_configured entries url) as [[|]|e] eqn:Hdup.
    + by rewrite (step_user_duplicate entries self data url) in Hstep.
    + rewrite (step_user_validated entries self data url nid info tr) in Hstep
        by done.
      injection Hstep as <- Hres <-.
      destruct (_abort_if_unique_id_configured entries _); [|done].
      cbn in Hres. rewrite Hinfo in Hres.
      destruct (data !! CONF_FILE_PATH) as [fp|] eqn:Hfp.
      * rewrite (create_entry_user _ _ _ _ fp) in Hres by done.
        injection Hres as <- <-.
        split_and!; done || apply lookup_insert_eq.
      * unfold create_entry, dict_getitem in Hres. cbn in Hres.
        rewrite Himp, Hfp in Hres. done.
    + rewrite (step_user_try_raises entries self data e []) in Hstep; [done|].
      unfold try_body. rewrite Hurl. cbn. by rewrite Hdup.
  - intros fp Hdup Hfresh Hfp.
    rewrite (step_user_validated entries self data url nid info tr) by done.
    rewrite abort_if_configured_fresh by done. cbn.
    rewrite Hinfo. by rewrite (create_entry_user _ _ _ _ fp).
Qed.

Lemma step_user_flag_only entries self1 self2 user_input :
  importing self1 = importing self2 →
  snd (fst (async_step_user entries self1 user_input)) =
    snd (fst (async_step_user entries self2 user_input))
  ∧ snd (async_step_user entries self1 user_input) =
      snd (async_step_user entries self2 user_input).
Proof.
  intros Hflag. destruct user_input as [data|]; [|done].
  unfold async_step_user.
  destruct (try_body entries data) as [[[res|[nid info]]|e] tr]; cbn; [done| |].
  - split; [|done].
    unfold _abort_if_unique_id_configured, create_entry; cbn.
    by rewrite Hflag.
  - by rewrite handle_exception_base.
Qed.

(** C8. On a successful validation that passes both duplicate checks, the
    flow with [importing] unset creates a record whose data is the resolved
    host URL and the file path of the input, and nothing else of the input;
    the flow with [importing] set creates a record whose data is the input
    as it came.  The flag is unset in a new flow and set by the import entry
    point, and nothing else of the flow object bears on the outcome. *)
Theorem entry_data_by_variant
    (entries : list ConfigEntry) (self : ConfigFlow) (data : dict)
    (url : string) (t : nat) :
  _make_url_from_data data = Ok url →
  _url_already_configured entries url = Ok false →
  config_ok (upb_lib_UpbPim url (dict_get data CONF_FILE_PATH)) = true →
  connected_after (upb_lib_UpbPim url (dict_get data CONF_FILE_PATH)) = Some t →
  (t ≤ VALIDATE_TIMEOUT)%nat →
  ¬ Exists
      (λ entry,
         entry_unique_id entry =
           Some (network_id (upb_lib_UpbPim url (dict_get data CONF_FILE_PATH))))
      entries →
  (importing self = false →
   ∀ fp, data !! CONF_FILE_PATH = Some fp →
         snd (fst (async_step_user entries self (Some data))) =
           Ok (CreateEntryResult (VStr "UPB")
                 (<[CONF_HOST := VStr url]> (<[CONF_FILE_PATH := fp]> ∅))))
  ∧ (importing self = true →
     snd (fst (async_step_user entries self (Some data))) =
       Ok (CreateEntryResult (VStr "UPB") data))
  ∧ snd (fst (async_step_import entries self data)) =
      Ok (CreateEntryResult (VStr "UPB") data)
  ∧ importing __init__ = false
  ∧ (∀ other,
       importing other = importing self →
       snd (fst (async_step_user entries other (Some data))) =
         snd (fst (async_step_user entries self (Some data)))).
Proof.
  intros Hurl Hdup Hcfg Hconn Ht Hfresh.
  pose proof (_validate_input_connected data url t Hurl Hcfg Hconn Ht) as Hval.
  assert (∀ s, importing s = true →
               snd (fst (async_step_user entries s (Some data))) =
                 Ok (CreateEntryResult (VStr "UPB") data)) as Himport.
  { intros s Hs.
    rewrite (step_user_validated entries s data url _ _ _ Hurl Hdup Hval). cbn.
    rewrite abort_if_configured_fresh by done. cbn.
    by rewrite create_entry_import. }
  split_and!.
  - intros Himp fp Hfp.
    rewrite (step_user_validated entries self data url _ _ _ Hurl Hdup Hval). cbn.
    rewrite abort_if_configured_fresh by done. cbn.
    by rewrite (create_entry_user _ _ _ _ fp).
  - apply Himport.
  - unfold async_step_import. by apply Himport.
  - done.
  - intros other Hflag. by apply step_user_flag_only.
Qed.

End properties.

(** ** The store *)

Lemma try_body_returned {E : External} entries data res tr :
  try_body entries data = (Ok (inl res), tr) →
  res = AbortResult "already_configured".
Proof.
  unfold try_body.
  destruct (_make_url_from_data data) as [url|e]; [|done].
  destruct (_validate_input data) as [[r|e] tr0]; cbn;
    destruct (_url_already_configured entries url) as [[|]|e']; cbn;
    intros; by simplify_eq.
Qed.

Lemma step_user_created {E : External} entries self user_input self' r tr title d :
  async_step_user entries self user_input = (self', r, tr) →
  handle_step r = Ok (CreateEntryResult title d) →
  ¬ Exists (λ entry, entry_unique_id entry = unique_id self') entries.
Proof.
  intros Hstep Hres. destruct user_input as [data|].
  2: { rewrite step_user_no_input in Hstep. by simplify_eq. }
  unfold async_step_user in Hstep.
  destruct (try_body entries data) as [[[res|[nid info]]|e] tr0] eqn:Htry;
    cbn in Hstep.
  - apply try_body_returned in Htry as ->. by simplify_eq.
  - injection Hstep as <- <- <-.
    unfold _abort_if_unique_id_configured in Hres.
    case_bool_decide; [done|]. done.
  - rewrite handle_exception_base in Hstep. by simplify_eq.
Qed.

Lemma finish_flow_ids {E : External} entries self user_input :
  NoDup (entry_unique_id <$> entries) →
  NoDup (entry_unique_id <$>
           (let '(self', r, _) := async_step_user entries self user_input in
            finish_flow entries self' r)).
Proof.
  intros Hnodup.
  destruct (async_step_user entries self user_input) as [[self' r] tr] eqn:Hstep.
  unfold finish_flow.
  destruct (handle_step r) as [[| |title d]|] eqn:Hres; try done.
  pose proof (step_user_created _ _ _ _ _ _ _ _ Hstep Hres) as Hfresh.
  rewrite fmap_app. cbn. apply NoDup_app. split_and!; [done| |apply NoDup_singleton].
  intros uid Huid Hin. apply list_elem_of_singleton in Hin as ->.
  apply Hfresh. apply Exists_exists.
  apply list_elem_of_fmap in Huid as (entry & ? & ?). eauto.
Qed.

Lemma store_step_ids entries entries' :
  store_step entries entries' →
  NoDup (entry_unique_id <$> entries) →
  NoDup (entry_unique_id <$> entries').
Proof.
  intros [E self user_input|E self user_input|i] Hnodup.
  - by apply finish_flow_ids.
  - unfold async_step_import. by apply finish_flow_ids.
  - eapply sublist_NoDup; [exact Hnodup|apply fmap_sublist, sublist_delete].
Qed.

(** ** Stores whose entries all have a host that parses *)

Lemma existing_hosts_snoc {E : External} entries hosts entry host h :
  existing_hosts entries = Ok hosts →
  entry_data entry !! CONF_HOST = Some host →
  urlparse_hostname host = Ok h →
  ∃ hosts', existing_hosts (entries ++ [entry]) = Ok hosts'.
Proof.
  intros Hall Hhost Hh. revert hosts Hall.
  induction entries as [|e rest IH]; intros hosts Hall.
  - cbn. unfold dict_getitem. rewrite Hhost. cbn. rewrite Hh. cbn. eauto.
  - cbn in *. destruct (dict_getitem (entry_data e) CONF_HOST) as [x|]; [|done].
    cbn in *. destruct (urlparse_hostname x) as [y|]; [|done]. cbn in *.
    destruct (existing_hosts rest) as [hs|] eqn:Hrest; [|done].
    destruct (IH hs eq_refl) as [hs' ->]. cbn. eauto.
Qed.

Lemma existing_hosts_delete {E : External} entries hosts i :
  existing_hosts entries = Ok hosts →
  ∃ hosts', existing_hosts (delete i entries) = Ok hosts'.
Proof.
  revert hosts i. induction entries as [|e rest IH]; intros hosts i Hall.
  - destruct i; cbn; eauto.
  - cbn in Hall.
    destruct (dict_getitem (entry_data e) CONF_HOST) as [x|] eqn:Hx; [|done].
    cbn in Hall. destruct (urlparse_hostname x) as [y|] eqn:Hy; [|done].
    cbn in Hall. destruct (existing_hosts rest) as [hs|] eqn:Hrest; [|done].
    destruct i as [|i]; [cbn; eauto|].
    destruct (IH hs i eq_refl) as [hs' Hhs'].
    change (delete (S i) (e :: rest)) with (e :: delete i rest).
    cbn. rewrite Hx. cbn. rewrite Hy. cbn. rewrite Hhs'. cbn. eauto.
Qed.

Lemma url_already_configured_parses {E : External} entries url b :
  _url_already_configured entries url = Ok b →
  (∃ hosts, existing_hosts entries = Ok hosts)
  ∧ ∃ h, urlparse_hostname (VStr url) = Ok h.
Proof.
  unfold _url_already_configured.
  destruct (existing_hosts entries) as [hosts|]; [|done]. cbn.
  destruct (urlparse_hostname (VStr url)) as [h|]; [|done]. eauto.
Qed.

Lemma make_url_explicit data :
  truthy (dict_get data CONF_HOST) = true →
  ∃ url, _make_url_from_data data = Ok url
         ∧ data !! CONF_HOST = Some (VStr url).
Proof.
  intros Hhost. unfold _make_url_from_data. rewrite Hhost.
  unfold dict_get in *. destruct (data !! CONF_HOST) as [[|h]|]; try done.
  by exists h.
Qed.

Lemma step_user_created_host {E : External}
    entries self user_input self' r tr title d :
  async_step_user entries self user_input = (self', r, tr) →
  handle_step r = Ok (CreateEntryResult title d) →
  importing self = false
  ∨ (∃ data, user_input = Some data ∧ truthy (dict_get data CONF_HOST) = true) →
  ∃ url h, d !! CONF_HOST = Some (VStr url)
           ∧ urlparse_hostname (VStr url) = Ok h.
Proof.
  intros Hstep Hres Hkind. destruct user_input as [data|].
  2: { rewrite step_user_no_input in Hstep. by simplify_eq. }
  destruct (_make_url_from_data data) as [url|e] eqn:Hurl.
  2: { erewrite step_user_no_url in Hstep by done. by simplify_eq. }
  destruct (_url_already_configured entries url) as [[|]|e] eqn:Hdup.
  - erewrite step_user_duplicate in Hstep by done. by simplify_eq.
  - destruct (url_already_configured_parses _ _ _ Hdup) as [_ [h Hh]].
    exists url, h. split; [|done].
    destruct (_validate_input data) as [[[nid info]|e] tr0] eqn:Hval.
    2: { erewrite step_user_validate_raises in Hstep by done. by simplify_eq. }
    destruct (validate_ok_inv data url nid info tr0 Hurl Hval) as [_ ->].
    erewrite step_user_validated in Hstep by done.
    injection Hstep as <- <- <-.
    unfold _abort_if_unique_id_configured in Hres.
    case_bool_decide; [done|].
    cbn in Hres. unfold create_entry in Hres. cbn in Hres.
    destruct (importing self) eqn:Himp.
    + cbn in Hres. injection Hres as <- <-.
      destruct Hkind as [?|(data' & [= <-] & Hhost)]; [done|].
      destruct (make_url_explicit data Hhost) as (url' & Hurl' & Hhost').
      rewrite Hurl in Hurl'. by simplify_eq.
    + unfold dict_getitem in Hres. cbn in Hres.
      destruct (data !! CONF_FILE_PATH); [|done].
      cbn in Hres. injection Hres as <- <-. apply lookup_insert_eq.
  - rewrite (step_user_try_raises entries self data e []) in Hstep.
    + by simplify_eq.
    + unfold try_body. rewrite Hurl. cbn. by rewrite Hdup.
Qed.

Lemma finish_flow_hosts {E : External} entries hosts self user_input :
  existing_hosts entries = Ok hosts →
  importing self = false
  ∨ (∃ data, user_input = Some data ∧ truthy (dict_get data CONF_HOST) = true) →
  ∃ hosts',
    existing_hosts
      (let '(self', r, _) := async_step_user entries self user_input in
       finish_flow entries self' r) = Ok hosts'.
Proof.
  intros Hall Hkind.
  destruct (async_step_user entries self user_input) as [[self' r] tr] eqn:Hstep.
  unfold finish_flow.
  destruct (handle_step r) as [[| |title d]|] eqn:Hres; eauto.
  destruct (step_user_created_host _ _ _ _ _ _ _ _ Hstep Hres Hkind)
    as (url & h & Hd & Hh).
  by eapply existing_hosts_snoc.
Qed.

(** In a store built by user-driven flows and by imports of records with
    their URL in the [host] field, every entry has a host that parses: the
    duplicate check does not raise on account of the store. *)
Lemma flow_store_hosts {E : External} entries :
  flow_store entries → ∃ hosts, existing_hosts entries = Ok hosts.
Proof.
  induction 1 as [|entries self user_input _ [hosts IH] Himp
                  |entries self user_input _ [hosts IH] Hhost
                  |entries i _ [hosts IH]].
  - by exists ∅.
  - eapply finish_flow_hosts; eauto.
  - unfold async_step_import. eapply finish_flow_hosts; eauto.
  - by eapply existing_hosts_delete.
Qed.

(** C5. When an input passes the address check and validates, but the
    network id it yields is the key of an entry of the store (as when a
    device that was registered is submitted again under another address),
    the step ends the flow with [already_configured] and the store is left
    as it was; and in a store built by flows no two records have the same
    identifier. *)
Theorem known_network_id_aborts
    {E : External} (entries : list ConfigEntry) (self : ConfigFlow)
    (data : dict) (url nid : string) (info : dict) (tr : list event)
    (entry : ConfigEntry) :
  _make_url_from_data data = Ok url →
  _url_already_configured entries url = Ok false →
  _validate_input data = (Ok (nid, info), tr) →
  entry ∈ entries →
  entry_unique_id entry = Some nid →
  async_step_user entries self (Some data) =
    (async_set_unique_id self nid, Raise (AbortFlow "already_configured"), tr)
  ∧ handle_step (snd (fst (async_step_user entries self (Some data)))) =
      Ok (AbortResult "already_configured")
  ∧ finish_flow entries (async_set_unique_id self nid)
      (snd (fst (async_step_user entries self (Some data)))) = entries
  ∧ (∀ store, reachable store → NoDup (entry_unique_id <$> store)).
Proof.
  intros Hurl Hdup Hval Hin Hid.
  assert (async_step_user entries self (Some data) =
            (async_set_unique_id self nid,
             Raise (AbortFlow "already_configured"), tr)) as Hstep.
  { rewrite (step_user_validated entries self data url nid info tr) by done.
    rewrite abort_if_configured_known; [done|].
    apply Exists_exists. by exists entry. }
  split; [done|]. rewrite Hstep. split_and!; [done..|].
  intros store Hreach. induction Hreach as [|store store' _ IH Hstore].
  - apply NoDup_nil_2.
  - by eapply store_step_ids.
Qed.

(** ** The model of [urlparse]: URLs in parts *)

Section urllib_facts.
Import urllib.

Lemma string_app_nil_r (a : string) : a +:+ "" = a.
Proof. induction a as [|x a IH]; [done|]. by rewrite string_app_cons, IH. Qed.

Lemma string_forallb_app p (a b : string) :
  string_forallb p (a +:+ b) = string_forallb p a && string_forallb p b.
Proof.
  induction a as [|x a IH]; [done|].
  rewrite string_app_cons. cbn. by rewrite IH, andb_assoc.
Qed.

Lemma string_forallb_impl (p q : ascii → bool) (s : string) :
  (∀ a, p a = true → q a = true) →
  string_forallb p s = true → string_forallb q s = true.
Proof.
  intros Hpq. induction s as [|x s IH]; [done|]. cbn.
  intros [Hx Hs]%andb_true_iff. rewrite (Hpq x Hx). by apply IH.
Qed.

Lemma partition_found c (a b : string) :
  string_forallb (λ x, negb (bool_decide (x = c))) a = true →
  partition c (a +:+ String c b) = (a, Some b).
Proof.
  induction a as [|x a IH]; cbn.
  - intros _. rewrite string_app_nil. cbn. by rewrite bool_decide_true.
  - intros [Hx Ha]%andb_true_iff. rewrite string_app_cons. cbn.
    apply negb_true_iff in Hx. rewrite Hx. by rewrite IH.
Qed.

Lemma partition_not_found c (a : string) :
  string_forallb (λ x, negb (bool_decide (x = c))) a = true →
  partition c a = (a, None).
Proof.
  induction a as [|x a IH]; cbn; [done|].
  intros [Hx Ha]%andb_true_iff.
  apply negb_true_iff in Hx. rewrite Hx. by rewrite IH.
Qed.

Lemma after_last_absent c (s acc : string) :
  string_forallb (λ x, negb (bool_decide (x = c))) s = true →
  after_last c s acc = acc.
Proof.
  revert acc. induction s as [|x s IH]; intros acc; cbn; [done|].
  intros [Hx Hs]%andb_true_iff.
  apply negb_true_iff in Hx. rewrite Hx. by apply IH.
Qed.

Lemma contains_absent c (s : string) :
  string_forallb (λ x, negb (bool_decide (x = c))) s = true →
  contains c s = false.
Proof. intros Hs. unfold contains. by rewrite Hs. Qed.

Lemma take_until_app p (a b : string) :
  string_forallb (λ x, negb (p x)) a = true →
  match b with String x _ => p x = true | EmptyString => True end →
  take_until p (a +:+ b) = (a, b).
Proof.
  intros Ha Hb. induction a as [|x a IH].
  - rewrite string_app_nil. destruct b as [|y b]; [done|]. cbn. by rewrite Hb.
  - cbn in Ha. apply andb_true_iff in Ha as [Hx Ha].
    rewrite string_app_cons. cbn.
    apply negb_true_iff in Hx. rewrite Hx. by rewrite IH.
Qed.

Lemma scheme_char_not_colon a :
  scheme_char a = true → negb (bool_decide (a = ":"%char)) = true.
Proof. intros H. other_char H. Qed.

Lemma digit_char_host_like a :
  digit_char a = true →
  negb (netloc_delim a) = true
  ∧ negb (bool_decide (a = "@"%char)) = true
  ∧ negb (bool_decide (a = "["%char)) = true
  ∧ negb (bool_decide (a = "]"%char)) = true.
Proof. intros H. other_char H. Qed.

Lemma host_char_plain a :
  host_char a = true →
  negb (netloc_delim a) = true
  ∧ negb (bool_decide (a = "@"%char)) = true
  ∧ negb (bool_decide (a = "["%char)) = true
  ∧ negb (bool_decide (a = "]"%char)) = true
  ∧ negb (bool_decide (a = ":"%char)) = true
  ∧ negb (bool_decide (a = "%"%char)) = true.
Proof. intros H. other_char H. Qed.

Lemma strip_scheme_compose (scheme rest : string) :
  scheme ≠ "" →
  string_forallb scheme_char scheme = true →
  strip_scheme (scheme +:+ ("://" +:+ rest)) = "//" +:+ rest.
Proof.
  intros Hne Hscheme. unfold strip_scheme.
  change ("://" +:+ rest) with (String ":" ("//" +:+ rest)).
  rewrite partition_found
    by (eapply string_forallb_impl; [apply scheme_char_not_colon|done]).
  rewrite Hscheme. by rewrite (bool_decide_false (scheme = "")).
Qed.

Lemma netloc_compose (p : url_parts) :
  well_formed p = true →
  netloc (compose_url p) = Ok (up_host p +:+ port_text (up_port p))
  ∧ string_forallb (λ x, negb (bool_decide (x = "@"%char)))
      (up_host p +:+ port_text (up_port p)) = true
  ∧ string_forallb (λ x, negb (bool_decide (x = "["%char)))
      (up_host p +:+ port_text (up_port p)) = true.
Proof.
  destruct p as [scheme host port path]. unfold well_formed, compose_url. cbn.
  intros (((((Hletter & Hscheme)%andb_true_iff & Hhost)%andb_true_iff
            & Hchars)%andb_true_iff & Hport)%andb_true_iff
          & Hpath)%andb_true_iff.
  assert (scheme ≠ "") as Hne by (by destruct scheme).
  assert (string_forallb
            (λ x, negb (netloc_delim x) && negb (bool_decide (x = "@"%char))
                  && negb (bool_decide (x = "["%char))
                  && negb (bool_decide (x = "]"%char)))
            (host +:+ port_text port) = true) as Hnl.
  { rewrite string_forallb_app. apply andb_true_iff. split.
    - eapply string_forallb_impl; [|exact Hchars].
      intros a (-> & -> & -> & -> & _)%host_char_plain. done.
    - destruct port as [digits|]; [|done]. cbn.
      eapply string_forallb_impl; [|exact Hport].
      intros a (-> & -> & -> & ->)%digit_char_host_like. done. }
  assert (∀ q : ascii → bool,
            (∀ a, negb (netloc_delim a) && negb (bool_decide (a = "@"%char))
                  && negb (bool_decide (a = "["%char))
                  && negb (bool_decide (a = "]"%char)) = true → q a = true) →
            string_forallb q (host +:+ port_text port) = true) as Hall.
  { intros q Hq. eapply string_forallb_impl; [exact Hq|exact Hnl]. }
  split_and!.
  - unfold netloc. rewrite strip_scheme_compose by done.
    change ("//" +:+ ?r) with (String "/" (String "/" r)).
    rewrite <-string_app_assoc.
    rewrite take_until_app.
    + cbn. rewrite (contains_absent "["), (contains_absent "]"); [done|..];
        apply Hall;
        intros a (((_ & _)%andb_true_iff & ?)%andb_true_iff & ?)%andb_true_iff;
        done.
    + apply Hall.
      by intros a (((? & _)%andb_true_iff & _)%andb_true_iff & _)%andb_true_iff.
    + destruct path as [|x path]; [done|].
      unfold netloc_delim. apply bool_decide_eq_true in Hpath as ->. done.
  - apply Hall.
    by intros a (((_ & ?)%andb_true_iff & _)%andb_true_iff & _)%andb_true_iff.
  - apply Hall.
    by intros a (((_ & _)%andb_true_iff & ?)%andb_true_iff & _)%andb_true_iff.
Qed.

Lemma hostname_compose (p : url_parts) :
  well_formed p = true →
  hostname (VStr (compose_url p)) = Ok (Some (lower (up_host p))).
Proof.
  intros Hwf. destruct (netloc_compose p Hwf) as (Hnl & Hat & Hbr).
  unfold hostname. rewrite Hnl. cbn. unfold hostname_of_netloc.
  rewrite after_last_absent by done.
  rewrite (partition_not_found "[") by done.
  destruct p as [scheme host port path]. unfold well_formed in Hwf. cbn in *.
  apply andb_true_iff in Hwf as [Hwf _]. apply andb_true_iff in Hwf as [Hwf _].
  apply andb_true_iff in Hwf as [Hwf Hchars].
  apply andb_true_iff in Hwf as [_ Hhost].
  apply negb_true_iff, bool_decide_eq_false in Hhost.
  assert (fst (partition ":" (host +:+ port_text port)) = host) as ->.
  { destruct port as [digits|]; cbn.
    - rewrite partition_found; [done|].
      eapply string_forallb_impl; [|exact Hchars].
      by intros a (_ & _ & _ & _ & ? & _)%host_char_plain.
    - rewrite string_app_nil_r. rewrite partition_not_found; [done|].
      eapply string_forallb_impl; [|exact Hchars].
      by intros a (_ & _ & _ & _ & ? & _)%host_char_plain. }
  rewrite bool_decide_false by done.
  rewrite partition_not_found; [done|].
  eapply string_forallb_impl; [|exact Hchars].
  by intros a (_ & _ & _ & _ & _ & ?)%host_char_plain.
Qed.

End urllib_facts.

(** ** The duplicate check and the hostname *)

Lemma url_already_configured_hostname {E : External} entries u1 u2 :
  urlparse_hostname (VStr u1) = urlparse_hostname (VStr u2) →
  _url_already_configured entries u1 = _url_already_configured entries u2.
Proof. intros Hh. unfold _url_already_configured. by rewrite Hh. Qed.

(** ** Scenarios *)

Example scenario_connected :
  async_step_user (E := py_external (scenario_client (Some 2%nat)))
    [] __init__ (Some scenario_input) =
    ({| importing := false; unique_id := Some "NET42" |},
     Ok (CreateEntryResult (VStr "UPB") scenario_data),
     [EvValidateInput scenario_input;
      EvUpbPim "tcp://192.0.2.5:2101" (VStr "");
      EvConnect; EvWait 2; EvDisconnect]).
Proof. vm_compute. reflexivity. Qed.

Example scenario_never_connected :
  async_step_user (E := py_external (scenario_client None))
    [] __init__ (Some scenario_input) =
    (__init__,
     Ok (FormResult "user" (<["base" := "cannot_connect"]> ∅)),
     [EvValidateInput scenario_input;
      EvUpbPim "tcp://192.0.2.5:2101" (VStr "");
      EvConnect; EvWait 15; EvDisconnect;
      EvLogError
        "Timed out after %d seconds trying to connect with UPB PIM at %s"
        ["15"; "tcp://192.0.2.5:2101"]]).
Proof. vm_compute. reflexivity. Qed.

Example scenario_respelled :
  async_step_user (E := py_external (scenario_client (Some 2%nat)))
    [named_entry] __init__ (Some respelled_input) =
    (__init__, Ok (AbortResult "already_configured"), []).
Proof. vm_compute. reflexivity. Qed.

Example scenario_serial_ports_collide :
  _url_already_configured (E := py_external (scenario_client (Some 2%nat)))
    [{| entry_unique_id := Some "NET1"; entry_title := VStr "UPB";
        entry_data := <[CONF_HOST := VStr "serial:///dev/ttyS0"]> ∅ |}]
    "serial:///dev/ttyS1" = Ok true.
Proof. vm_compute. reflexivity. Qed.

(** ** The theorems at the scenarios *)

Lemma user_flow_record_witness :
  effective_url scenario_input = Some "tcp://192.0.2.5:2101"
  ∧ "NET42" =
    network_id
      (upb_lib_UpbPim (External := py_external (scenario_client (Some 2%nat)))
         "tcp://192.0.2.5:2101" (dict_get scenario_input CONF_FILE_PATH))
  ∧ (∀ self' title d tr',
       async_step_user (E := py_external (scenario_client (Some 2%nat)))
         [] __init__ (Some scenario_input) =
         (self', Ok (CreateEntryResult title d), tr') →
       title = VStr "UPB"
       ∧ unique_id self' = Some "NET42"
       ∧ d !! CONF_HOST = Some (VStr "tcp://192.0.2.5:2101")
       ∧ finish_flow [] self' (Ok (CreateEntryResult title d)) =
           [] ++ [{| entry_unique_id := Some "NET42";
                     entry_title := VStr "UPB";
                     entry_data := d |}])
  ∧ (∀ fp,
       _url_already_configured (E := py_external (scenario_client (Some 2%nat)))
         [] "tcp://192.0.2.5:2101" = Ok false →
       ¬ Exists (λ entry, entry_unique_id entry = Some "NET42") [] →
       scenario_input !! CONF_FILE_PATH = Some fp →
       async_step_user (E := py_external (scenario_client (Some 2%nat)))
         [] __init__ (Some scenario_input) =
         (async_set_unique_id __init__ "NET42",
          Ok (CreateEntryResult (VStr "UPB")
                (<[CONF_HOST := VStr "tcp://192.0.2.5:2101"]>
                   (<[CONF_FILE_PATH := fp]> ∅))),
          [EvValidateInput scenario_input;
           EvUpbPim "tcp://192.0.2.5:2101" (VStr "");
           EvConnect; EvWait 2; EvDisconnect])).
Proof.
  apply (user_flow_record (E := py_external (scenario_client (Some 2%nat)))
           [] __init__ scenario_input "tcp://192.0.2.5:2101" "NET42"
           (info_of "tcp://192.0.2.5:2101" (VStr ""))).
  - reflexivity.
  - vm_compute. reflexivity.
  - vm_compute. reflexivity.
Defined.

Lemma duplicate_host_aborts_without_validation_witness :
  async_step_user (E := py_external (scenario_client (Some 2%nat)))
    [scenario_entry] __init__ (Some scenario_input) =
    (__init__, Ok (AbortResult "already_configured"), [])
  ∧ async_step_import (E := py_external (scenario_client (Some 2%nat)))
      [scenario_entry] __init__ scenario_input =
      ({| importing := true; unique_id := unique_id __init__ |},
       Ok (AbortResult "already_configured"), []).
Proof.
  apply (duplicate_host_aborts_without_validation
           (E := py_external (scenario_client (Some 2%nat)))
           [scenario_entry] __init__ scenario_input "tcp://192.0.2.5:2101"
           (Some "192.0.2.5") {[ Some "192.0.2.5" ]} scenario_entry
           (VStr "tcp://192.0.2.5:2101")).
  - vm_compute. reflexivity.
  - vm_compute. reflexivity.
  - vm_compute. reflexivity.
  - apply list_elem_of_here.
  - vm_compute. reflexivity.
  - vm_compute. reflexivity.
Defined.

Lemma timeout_fails_after_deadline_witness :
  ∃ tr,
    async_step_user (E := py_external (scenario_client None))
      [] __init__ (Some scenario_input) =
      (__init__, Ok (FormResult "user" (<["base" := "cannot_connect"]> ∅)), tr)
    ∧ _validate_input (E := py_external (scenario_client None)) scenario_input =
        (Raise CannotConnect, tr)
    ∧ tr = [EvValidateInput scenario_input;
            EvUpbPim "tcp://192.0.2.5:2101" (dict_get scenario_input CONF_FILE_PATH);
            EvConnect; EvWait 15; EvDisconnect;
            timeout_log "tcp://192.0.2.5:2101"]
    ∧ elapsed tr = 15%nat
    ∧ connection_open tr = false.
Proof.
  apply (timeout_fails_after_deadline (E := py_external (scenario_client None))
           [] __init__ scenario_input "tcp://192.0.2.5:2101").
  - vm_compute. reflexivity.
  - vm_compute. reflexivity.
  - reflexivity.
  - intros t Ht. vm_compute in Ht. discriminate Ht.
Defined.

Lemma invalid_file_fails_without_connecting_witness :
  fst (_validate_input (E := py_external strict_client) scenario_input) =
    Raise InvalidUpbFile
  ∧ (EvConnect ∉ snd (_validate_input (E := py_external strict_client)
                        scenario_input))
  ∧ (_url_already_configured (E := py_external strict_client)
       [] "tcp://192.0.2.5:2101" = Ok false →
     fst (async_step_user (E := py_external strict_client)
            [] __init__ (Some scenario_input)) =
       (__init__, Ok (FormResult "user" (<["base" := "invalid_upb_file"]> ∅)))
     ∧ (EvConnect ∉ snd (async_step_user (E := py_external strict_client)
                           [] __init__ (Some scenario_input)))).
Proof.
  apply (invalid_file_fails_without_connecting (E := py_external strict_client)
           [] __init__ scenario_input "tcp://192.0.2.5:2101").
  - vm_compute. reflexivity.
  - vm_compute. reflexivity.
Defined.

Lemma known_network_id_aborts_witness :
  async_step_user (E := py_external (scenario_client (Some 2%nat)))
    [scenario_entry] __init__ (Some moved_input) =
    (async_set_unique_id __init__ "NET42",
     Raise (AbortFlow "already_configured"),
     [EvValidateInput moved_input; EvUpbPim "tcp://192.0.2.9:2101" (VStr "");
      EvConnect; EvWait 2; EvDisconnect])
  ∧ handle_step
      (snd (fst (async_step_user (E := py_external (scenario_client (Some 2%nat)))
                   [scenario_entry] __init__ (Some moved_input)))) =
      Ok (AbortResult "already_configured")
  ∧ finish_flow [scenario_entry] (async_set_unique_id __init__ "NET42")
      (snd (fst (async_step_user (E := py_external (scenario_client (Some 2%nat)))
                   [scenario_entry] __init__ (Some moved_input)))) =
      [scenario_entry]
  ∧ (∀ store, reachable store → NoDup (entry_unique_id <$> store)).
Proof.
  apply (known_network_id_aborts (E := py_external (scenario_client (Some 2%nat)))
           [scenario_entry] __init__ moved_input "tcp://192.0.2.9:2101" "NET42"
           (info_of "tcp://192.0.2.9:2101" (VStr "")) _ scenario_entry).
  - vm_compute. reflexivity.
  - vm_compute. reflexivity.
  - vm_compute. reflexivity.
  - apply list_elem_of_here.
  - reflexivity.
Defined.

Lemma entry_data_by_variant_witness :
  (importing __init__ = false →
   ∀ fp, scenario_input !! CONF_FILE_PATH = Some fp →
         snd (fst (async_step_user (E := py_external (scenario_client (Some 2%nat)))
                     [] __init__ (Some scenario_input))) =
           Ok (CreateEntryResult (VStr "UPB")
                 (<[CONF_HOST := VStr "tcp://192.0.2.5:2101"]>
                    (<[CONF_FILE_PATH := fp]> ∅))))
  ∧ (importing __init__ = true →
     snd (fst (async_step_user (E := py_external (scenario_client (Some 2%nat)))
                 [] __init__ (Some scenario_input))) =
       Ok (CreateEntryResult (VStr "UPB") scenario_input))
  ∧ snd (fst (async_step_import (E := py_external (scenario_client (Some 2%nat)))
                [] __init__ scenario_input)) =
      Ok (CreateEntryResult (VStr "UPB") scenario_input)
  ∧ importing __init__ = false
  ∧ (∀ other,
       importing other = importing __init__ →
       snd (fst (async_step_user (E := py_external (scenario_client (Some 2%nat)))
                   [] other (Some scenario_input))) =
         snd (fst (async_step_user (E := py_external (scenario_client (Some 2%nat)))
                     [] __init__ (Some scenario_input)))).
Proof.
  apply (entry_data_by_variant (E := py_external (scenario_client (Some 2%nat)))
           [] __init__ scenario_input "tcp://192.0.2.5:2101" 2).
  - vm_compute. reflexivity.
  - vm_compute. reflexivity.
  - reflexivity.
  - reflexivity.
  - vm_compute. lia.
  - intros Hex. apply Exists_nil in Hex. exact Hex.
Defined.

Lemma unknown_protocol_shows_form_witness :
  _make_url_from_data udp_input = Raise (KeyError (VStr "UDP"))
  ∧ async_step_import (E := py_external (scenario_client (Some 2%nat)))
      [] __init__ udp_input =
      ({| importing := true; unique_id := unique_id __init__ |},
       Ok (FormResult "user" (<["base" := "unknown"]> ∅)), [])
  ∧ async_step_user (E := py_external (scenario_client (Some 2%nat)))
      [] __init__ (Some udp_input) =
      (__init__, Ok (FormResult "user" (<["base" := "unknown"]> ∅)), []).
Proof.
  apply (unknown_protocol_shows_form
           (E := py_external (scenario_client (Some 2%nat)))
           [] __init__ udp_input (VStr "UDP")).
  - vm_compute. reflexivity.
  - vm_compute. reflexivity.
  - discriminate.
  - discriminate.
Defined.

(** * Further properties of the flow *)

Section further.
Context {E : External}.

(** ** The step, case by case *)

Lemma step_user_eq entries self data :
  async_step_user entries self (Some data) =
    match _make_url_from_data data with
    | Raise _ => (self, Ok (FormResult "user" (<["base" := "unknown"]> ∅)), [])
    | Ok url =>
        match _url_already_configured entries url with
        | Raise e => (self, Ok (FormResult "user" (handle_exception e ∅)), [])
        | Ok true => (self, Ok (AbortResult "already_configured"), [])
        | Ok false =>
            match _validate_input data with
            | (Raise e, tr) =>
                (self, Ok (FormResult "user" (handle_exception e ∅)), tr)
            | (Ok (nid, info), tr) =>
                (async_set_unique_id self nid,
                 (_abort_if_unique_id_configured entries
                    (async_set_unique_id self nid);;
                  create_entry (async_set_unique_id self nid) info data),
                 tr)
            end
        end
    end.
Proof.
  destruct (_make_url_from_data data) as [url|e] eqn:Hurl.
  2: { by erewrite step_user_no_url. }
  destruct (_url_already_configured entries url) as [[|]|e] eqn:Hdup.
  - by erewrite step_user_duplicate.
  - destruct (_validate_input data) as [[[nid info]|e] tr] eqn:Hval.
    + by erewrite step_user_validated.
    + by erewrite step_user_validate_raises.
  - rewrite (step_user_try_raises entries self data e []); [done|].
    unfold try_body. rewrite Hurl. cbn. by rewrite Hdup.
Qed.

Lemma validate_raise_kind data url e tr :
  _make_url_from_data data = Ok url →
  _validate_input data = (Raise e, tr) →
  e = InvalidUpbFile ∨ e = CannotConnect.
Proof.
  intros Hurl Hval.
  destruct (_validate_input_paths data) as [e' Hu|u Hu|u Hu|u t Hu Ht];
    rewrite Hurl in Hu; simplify_eq; auto.
Qed.

(** What a successful validation says of the client. *)
Lemma validate_ok_conditions data url nid info tr :
  _make_url_from_data data = Ok url →
  _validate_input data = (Ok (nid, info), tr) →
  ∃ t,
    config_ok (upb_lib_UpbPim url (dict_get data CONF_FILE_PATH)) = true
    ∧ connected_after (upb_lib_UpbPim url (dict_get data CONF_FILE_PATH)) = Some t
    ∧ (t ≤ VALIDATE_TIMEOUT)%nat
    ∧ nid = network_id (upb_lib_UpbPim url (dict_get data CONF_FILE_PATH))
    ∧ info = info_of url (dict_get data CONF_FILE_PATH)
    ∧ tr = [EvValidateInput data; EvUpbPim url (dict_get data CONF_FILE_PATH);
            EvConnect; EvWait t; EvDisconnect].
Proof.
  intros Hurl Hval.
  destruct (config_ok (upb_lib_UpbPim url (dict_get data CONF_FILE_PATH)))
    eqn:Hcfg.
  2: { rewrite (_validate_input_invalid_file data url Hurl Hcfg) in Hval.
       discriminate Hval. }
  destruct (connected_after (upb_lib_UpbPim url (dict_get data CONF_FILE_PATH)))
    as [t|] eqn:Hconn.
  - destruct (decide (t ≤ VALIDATE_TIMEOUT)%nat) as [Ht|Ht].
    + rewrite (_validate_input_connected data url t Hurl Hcfg Hconn Ht) in Hval.
      exists t. by simplify_eq.
    + rewrite (_validate_input_timeout data url Hurl Hcfg) in Hval;
        [discriminate Hval|].
      intros t' Ht'. rewrite Hconn in Ht'. simplify_eq. lia.
  - rewrite (_validate_input_timeout data url Hurl Hcfg) in Hval;
      [discriminate Hval|].
    intros t' Ht'. rewrite Hconn in Ht'. discriminate Ht'.
Qed.

Lemma create_entry_user_missing self url file_path data :
  importing self = false →
  data !! CONF_FILE_PATH = None →
  create_entry self (info_of url file_path) data =
    Raise (KeyError (VStr CONF_FILE_PATH)).
Proof.
  intros Himp Hfp. unfold create_entry, dict_getitem. rewrite Himp, Hfp.
  reflexivity.
Qed.

(** What [create_entry] gives, by variant and by presence of the file
    path. *)
Lemma create_entry_eq self url file_path data :
  create_entry self (info_of url file_path) data =
    if importing self then Ok (CreateEntryResult (VStr "UPB") data)
    else
      match data !! CONF_FILE_PATH with
      | Some fp =>
          Ok (CreateEntryResult (VStr "UPB")
                (<[CONF_HOST := VStr url]> (<[CONF_FILE_PATH := fp]> ∅)))
      | None => Raise (KeyError (VStr CONF_FILE_PATH))
      end.
Proof.
  destruct (importing self) eqn:Himp.
  - by apply create_entry_import.
  - destruct (data !! CONF_FILE_PATH) as [fp|] eqn:Hfp.
    + by apply create_entry_user.
    + by apply create_entry_user_missing.
Qed.

(** ** Time *)

Lemma validate_elapsed data :
  elapsed (snd (_validate_input data)) =
    match _make_url_from_data data with
    | Ok url =>
        let upb := upb_lib_UpbPim url (dict_get data CONF_FILE_PATH) in
        if config_ok upb then
          match connected_after upb with
          | Some t => t `min` VALIDATE_TIMEOUT
          | None => VALIDATE_TIMEOUT
          end
        else 0%nat
    | Raise _ => 0%nat
    end.
Proof.
  destruct (_make_url_from_data data) as [url|e] eqn:Hurl.
  2: { by rewrite (_validate_input_no_url data e). }
  cbn zeta.
  destruct (config_ok (upb_lib_UpbPim url (dict_get data CONF_FILE_PATH)))
    eqn:Hcfg.
  2: { by rewrite (_validate_input_invalid_file data url). }
  destruct (connected_after (upb_lib_UpbPim url (dict_get data CONF_FILE_PATH)))
    as [t|] eqn:Hconn.
  - destruct (decide (t ≤ VALIDATE_TIMEOUT)%nat) as [Ht|Ht].
    + rewrite (_validate_input_connected data url t) by done.
      cbn. unfold VALIDATE_TIMEOUT in *. lia.
    + rewrite (_validate_input_timeout data url);
        [cbn; unfold VALIDATE_TIMEOUT in *; lia|done..|].
      intros t' Ht'. rewrite Hconn in Ht'. simplify_eq. lia.
  - rewrite (_validate_input_timeout data url); [done..|].
    intros t' Ht'. rewrite Hconn in Ht'. discriminate Ht'.
Qed.

Lemma validate_elapsed_le data :
  (elapsed (snd (_validate_input data)) ≤ VALIDATE_TIMEOUT)%nat.
Proof.
  rewrite validate_elapsed. unfold VALIDATE_TIMEOUT.
  destruct (_make_url_from_data data) as [url|]; [|lia]. cbn zeta.
  destruct (config_ok _); [|lia].
  destruct (connected_after _); lia.
Qed.

(** X1. The validator waits for as long as the client takes to signal,
    and for the deadline at most; it does not wait at all when the URL
    cannot be built or the client rejects its configuration.  No step of
    the flow waits longer than the deadline, whatever the client does. *)
Theorem waits_at_most_the_deadline
    (entries : list ConfigEntry) (self : ConfigFlow) (data : dict)
    (user_input : option dict) :
  elapsed (snd (_validate_input data)) =
    match _make_url_from_data data with
    | Ok url =>
        let upb := upb_lib_UpbPim url (dict_get data CONF_FILE_PATH) in
        if config_ok upb then
          match connected_after upb with
          | Some t => t `min` VALIDATE_TIMEOUT
          | None => VALIDATE_TIMEOUT
          end
        else 0%nat
    | Raise _ => 0%nat
    end
  ∧ (elapsed (snd (async_step_user entries self user_input)) ≤ VALIDATE_TIMEOUT)%nat
  ∧ (elapsed (snd (async_step_import entries self data)) ≤ VALIDATE_TIMEOUT)%nat.
Proof.
  assert (∀ s input,
            (elapsed (snd (async_step_user entries s input)) ≤ VALIDATE_TIMEOUT)%nat)
    as Hstep.
  { intros s input.
    destruct (step_user_trace entries s input) as [->|(d & -> & ->)].
    - cbn. unfold VALIDATE_TIMEOUT. lia.
    - apply validate_elapsed_le. }
  split; [apply validate_elapsed|]. split; [apply Hstep|].
  unfold async_step_import. apply Hstep.
Qed.

(** ** What a created record presupposes *)

(** X2. A step creates a record only after a validation that connected:
    the URL was built, the address check found no duplicate, the client
    accepted its configuration and signalled within the deadline, and no
    entry of the store had the network id; the connection was opened and
    closed once. *)
Theorem record_only_after_connection
    (entries : list ConfigEntry) (self self' : ConfigFlow)
    (user_input : option dict) (title : value) (d : dict) (tr : list event) :
  async_step_user entries self user_input =
    (self', Ok (CreateEntryResult title d), tr) →
  ∃ data url t,
    user_input = Some data
    ∧ _make_url_from_data data = Ok url
    ∧ _url_already_configured entries url = Ok false
    ∧ config_ok (upb_lib_UpbPim url (dict_get data CONF_FILE_PATH)) = true
    ∧ connected_after (upb_lib_UpbPim url (dict_get data CONF_FILE_PATH)) = Some t
    ∧ (t ≤ VALIDATE_TIMEOUT)%nat
    ∧ self' = async_set_unique_id self
                (network_id (upb_lib_UpbPim url (dict_get data CONF_FILE_PATH)))
    ∧ ¬ Exists (λ entry, entry_unique_id entry = unique_id self') entries
    ∧ title = VStr "UPB"
    ∧ tr = [EvValidateInput data; EvUpbPim url (dict_get data CONF_FILE_PATH);
            EvConnect; EvWait t; EvDisconnect].
Proof.
  intros Hstep. destruct user_input as [data|].
  2: { rewrite step_user_no_input in Hstep. by simplify_eq. }
  rewrite step_user_eq in Hstep.
  destruct (_make_url_from_data data) as [url|e] eqn:Hurl; [|by simplify_eq].
  destruct (_url_already_configured entries url) as [[|]|e] eqn:Hdup;
    try by simplify_eq.
  destruct (_validate_input data) as [[[nid info]|e] tr0] eqn:Hval;
    [|by simplify_eq].
  destruct (validate_ok_conditions data url nid info tr0 Hurl Hval)
    as (t & Hcfg & Hconn & Ht & -> & -> & ->).
  injection Hstep as <- Hres <-.
  exists data, url, t. split_and!; try done.
  - unfold _abort_if_unique_id_configured in Hres. by case_bool_decide.
  - unfold _abort_if_unique_id_configured in Hres.
    case_bool_decide; [done|]. cbn in Hres.
    rewrite create_entry_eq in Hres. cbn in Hres.
    destruct (importing self); [by simplify_eq|].
    destruct (data !! CONF_FILE_PATH); by simplify_eq.
Qed.

(** ** What escapes a step *)

Lemma step_user_connected entries self data url t :
  _make_url_from_data data = Ok url →
  _url_already_configured entries url = Ok false →
  config_ok (upb_lib_UpbPim url (dict_get data CONF_FILE_PATH)) = true →
  connected_after (upb_lib_UpbPim url (dict_get data CONF_FILE_PATH)) = Some t →
  (t ≤ VALIDATE_TIMEOUT)%nat →
  async_step_user entries self (Some data) =
    (async_set_unique_id self
       (network_id (upb_lib_UpbPim url (dict_get data CONF_FILE_PATH))),
     (_abort_if_unique_id_configured entries
        (async_set_unique_id self
           (network_id (upb_lib_UpbPim url (dict_get data CONF_FILE_PATH))));;
      create_entry self (info_of url (dict_get data CONF_FILE_PATH)) data),
     [EvValidateInput data; EvUpbPim url (dict_get data CONF_FILE_PATH);
      EvConnect; EvWait t; EvDisconnect]).
Proof.
  intros Hurl Hdup Hcfg Hconn Ht.
  pose proof (_validate_input_connected data url t Hurl Hcfg Hconn Ht) as Hval.
  by rewrite (step_user_validated entries self data url _ _ _ Hurl Hdup Hval).
Qed.

Lemma step_user_stored entries self data url t :
  _make_url_from_data data = Ok url →
  _url_already_configured entries url = Ok false →
  config_ok (upb_lib_UpbPim url (dict_get data CONF_FILE_PATH)) = true →
  connected_after (upb_lib_UpbPim url (dict_get data CONF_FILE_PATH)) = Some t →
  (t ≤ VALIDATE_TIMEOUT)%nat →
  ¬ Exists
      (λ entry,
         entry_unique_id entry =
           Some (network_id (upb_lib_UpbPim url (dict_get data CONF_FILE_PATH))))
      entries →
  async_step_user entries self (Some data) =
    (async_set_unique_id self
       (network_id (upb_lib_UpbPim url (dict_get data CONF_FILE_PATH))),
     create_entry self (info_of url (dict_get data CONF_FILE_PATH)) data,
     [EvValidateInput data; EvUpbPim url (dict_get data CONF_FILE_PATH);
      EvConnect; EvWait t; EvDisconnect]).
Proof.
  intros Hurl Hdup Hcfg Hconn Ht Hfresh.
  rewrite (step_user_connected entries self data url t) by done.
  by rewrite abort_if_configured_fresh.
Qed.

(** X3. In the user-driven variant the file path is read from the input
    after the [try] statement: when a validated input with a new network id
    has no [file_path] key, the step raises [KeyError] instead of showing a
    form; the unique id is already set and nothing is stored. *)
Theorem missing_file_path_raises
    (entries : list ConfigEntry) (self : ConfigFlow) (data : dict)
    (url : string) (t : nat) :
  importing self = false →
  _make_url_from_data data = Ok url →
  _url_already_configured entries url = Ok false →
  config_ok (upb_lib_UpbPim url (dict_get data CONF_FILE_PATH)) = true →
  connected_after (upb_lib_UpbPim url (dict_get data CONF_FILE_PATH)) = Some t →
  (t ≤ VALIDATE_TIMEOUT)%nat →
  ¬ Exists
      (λ entry,
         entry_unique_id entry =
           Some (network_id (upb_lib_UpbPim url (dict_get data CONF_FILE_PATH))))
      entries →
  data !! CONF_FILE_PATH = None →
  async_step_user entries self (Some data) =
    (async_set_unique_id self (network_id (upb_lib_UpbPim url VNone)),
     Raise (KeyError (VStr CONF_FILE_PATH)),
     [EvValidateInput data; EvUpbPim url VNone;
      EvConnect; EvWait t; EvDisconnect])
  ∧ finish_flow entries
      (async_set_unique_id self (network_id (upb_lib_UpbPim url VNone)))
      (Raise (KeyError (VStr CONF_FILE_PATH))) = entries.
Proof.
  intros Himp Hurl Hdup Hcfg Hconn Ht Hfresh Hfp.
  rewrite (step_user_connected entries self data url t) by done.
  rewrite abort_if_configured_fresh by done. cbn.
  rewrite create_entry_user_missing by done.
  unfold dict_get. rewrite Hfp. done.
Qed.


(** X5. When a submission is answered with the form, the form is the one
    of the [user] step, its errors are the single key [base] with one of
    the three tokens, the flow object is as it was, and nothing is
    stored. *)
Theorem form_carries_one_error
    (entries : list ConfigEntry) (self self' : ConfigFlow) (data : dict)
    (step_id : string) (errors : gmap string string) (tr : list event) :
  async_step_user entries self (Some data) =
    (self', Ok (FormResult step_id errors), tr) →
  step_id = "user"
  ∧ self' = self
  ∧ (errors = <["base" := "cannot_connect"]> ∅
     ∨ errors = <["base" := "invalid_upb_file"]> ∅
     ∨ errors = <["base" := "unknown"]> ∅)
  ∧ finish_flow entries self' (Ok (FormResult step_id errors)) = entries.
Proof.
  intros Hstep. rewrite step_user_eq in Hstep.
  assert (∀ e0, handle_exception e0 ∅ = <["base" := "cannot_connect"]> ∅
                ∨ handle_exception e0 ∅ = <["base" := "invalid_upb_file"]> ∅
                ∨ handle_exception e0 ∅ = <["base" := "unknown"]> ∅) as Htok.
  { intros []; cbn; auto. }
  destruct (_make_url_from_data data) as [url|e0] eqn:Hurl.
  2: { simplify_eq. split_and!; auto. }
  destruct (_url_already_configured entries url) as [[|]|e0] eqn:Hdup.
  - by simplify_eq.
  - destruct (_validate_input data) as [[[nid info]|e0] tr0] eqn:Hval.
    + destruct (validate_ok_inv data url nid info tr0 Hurl Hval) as [_ ->].
      injection Hstep as <- Hres <-.
      unfold _abort_if_unique_id_configured in Hres.
      case_bool_decide; [done|]. cbn in Hres.
      rewrite create_entry_eq in Hres. cbn in Hres.
      destruct (importing self); [by simplify_eq|].
      destruct (data !! CONF_FILE_PATH); by simplify_eq.
    + simplify_eq. split_and!; auto.
  - simplify_eq. split_and!; auto.
Qed.

(** ** The flow object *)

Lemma step_user_importing entries self user_input :
  importing (fst (fst (async_step_user entries self user_input))) =
    importing self.
Proof.
  destruct user_input as [data|]; [|done]. rewrite step_user_eq.
  destruct (_make_url_from_data data) as [url|]; [|done].
  destruct (_url_already_configured entries url) as [[|]|]; try done.
  by destruct (_validate_input data) as [[[nid info]|] tr].
Qed.

(** X6. A step changes nothing of the flow object but its unique id, and
    that only after a successful validation, to the network id: the
    [importing] flag is never reset, and [async_step_import] leaves it
    set whatever the outcome. *)
Theorem step_frames_flow_object
    (entries : list ConfigEntry) (self : ConfigFlow)
    (user_input : option dict) (data : dict) :
  importing (fst (fst (async_step_user entries self user_input))) =
    importing self
  ∧ importing (fst (fst (async_step_import entries self data))) = true
  ∧ (fst (fst (async_step_user entries self user_input)) = self
     ∨ ∃ d nid info tr,
         user_input = Some d
         ∧ _validate_input d = (Ok (nid, info), tr)
         ∧ fst (fst (async_step_user entries self user_input)) =
             async_set_unique_id self nid).
Proof.
  split; [apply step_user_importing|]. split.
  { unfold async_step_import. by rewrite step_user_importing. }
  destruct user_input as [d|]; [|by left]. rewrite step_user_eq.
  destruct (_make_url_from_data d) as [url|]; [|by left].
  destruct (_url_already_configured entries url) as [[|]|]; try by left.
  destruct (_validate_input d) as [[[nid info]|] tr] eqn:Hval; [|by left].
  right. by exists d, nid, info, tr.
Qed.

(** X7. The flag set by the import entry point outlives the import: when
    the form comes back after an import and the user submits it, the
    submission is stored as it came, as an import would be, and not as host
    and file path. *)
Theorem import_flag_outlives_import
    (entries entries' : list ConfigEntry) (self : ConfigFlow)
    (imported data : dict) (url : string) (t : nat) :
  _make_url_from_data data = Ok url →
  _url_already_configured entries' url = Ok false →
  config_ok (upb_lib_UpbPim url (dict_get data CONF_FILE_PATH)) = true →
  connected_after (upb_lib_UpbPim url (dict_get data CONF_FILE_PATH)) = Some t →
  (t ≤ VALIDATE_TIMEOUT)%nat →
  ¬ Exists
      (λ entry,
         entry_unique_id entry =
           Some (network_id (upb_lib_UpbPim url (dict_get data CONF_FILE_PATH))))
      entries' →
  snd (fst (async_step_user entries'
              (fst (fst (async_step_import entries self imported)))
              (Some data))) =
    Ok (CreateEntryResult (VStr "UPB") data).
Proof.
  intros Hurl Hdup Hcfg Hconn Ht Hfresh.
  rewrite (step_user_connected entries' _ data url t) by done. cbn.
  rewrite abort_if_configured_fresh by done. cbn.
  apply create_entry_import.
  change (importing (fst (fst (async_step_import entries self imported))) = true).
  unfold async_step_import. by rewrite step_user_importing.
Qed.

(** ** The store and the address check *)

Lemma existing_hosts_hostless entries entry :
  entry ∈ entries →
  entry_data entry !! CONF_HOST = None →
  (∀ entry' host,
     entry' ∈ entries →
     entry_data entry' !! CONF_HOST = Some host →
     ∃ h, urlparse_hostname host = Ok h) →
  existing_hosts entries = Raise (KeyError (VStr CONF_HOST)).
Proof.
  intros Hin Hnone Hparse. induction entries as [|e rest IH].
  { by apply elem_of_nil in Hin. }
  cbn. unfold dict_getitem.
  destruct (entry_data e !! CONF_HOST) as [host|] eqn:Hhost; [|done].
  destruct (Hparse e host) as [h Hh]; [by left|done|].
  cbn. rewrite Hh. cbn.
  rewrite IH; [done| |].
  - apply elem_of_cons in Hin as [->|Hin]; [congruence|done].
  - intros entry' host' Hin' Hhost'. apply (Hparse entry' host'); [by right|done].
Qed.

Lemma existing_hosts_parse entries hosts entry host :
  existing_hosts entries = Ok hosts →
  entry ∈ entries →
  entry_data entry !! CONF_HOST = Some host →
  ∃ h, urlparse_hostname host = Ok h.
Proof.
  revert hosts. induction entries as [|e rest IH]; intros hosts Hall Hin Hhost.
  { by apply elem_of_nil in Hin. }
  cbn in Hall. unfold dict_getitem in Hall.
  destruct (entry_data e !! CONF_HOST) as [host'|] eqn:Hhost'; [|done].
  cbn in Hall.
  destruct (urlparse_hostname host') as [h'|] eqn:Hh'; [|done]. cbn in Hall.
  destruct (existing_hosts rest) as [hs|] eqn:Hrest; [|done].
  apply elem_of_cons in Hin as [->|Hin].
  - rewrite Hhost in Hhost'. simplify_eq. eauto.
  - by eapply IH.
Qed.

Lemma step_user_check_raises entries self data url e :
  _make_url_from_data data = Ok url →
  _url_already_configured entries url = Raise e →
  async_step_user entries self (Some data) =
    (self, Ok (FormResult "user" (handle_exception e ∅)), []).
Proof. intros Hurl Hdup. by rewrite step_user_eq, Hurl, Hdup. Qed.

Lemma step_user_hostless entries self data url entry :
  entry ∈ entries →
  entry_data entry !! CONF_HOST = None →
  (∀ entry' host,
     entry' ∈ entries →
     entry_data entry' !! CONF_HOST = Some host →
     ∃ h, urlparse_hostname host = Ok h) →
  _make_url_from_data data = Ok url →
  _url_already_configured entries url = Raise (KeyError (VStr CONF_HOST))
  ∧ async_step_user entries self (Some data) =
      (self, Ok (FormResult "user" (<["base" := "unknown"]> ∅)), []).
Proof.
  intros Hin Hnone Hparse Hurl.
  assert (_url_already_configured entries url = Raise (KeyError (VStr CONF_HOST)))
    as Hdup.
  { unfold _url_already_configured.
    by rewrite (existing_hosts_hostless entries entry). }
  split; [done|]. by rewrite (step_user_check_raises _ _ _ url _ Hurl Hdup).
Qed.

(** X8. The address check reads the [host] field of every entry of the
    store: when one entry has none, the check raises [KeyError] for every
    submission whose URL can be built, the form comes back with the
    [unknown] error and the validator is not called.  The other entries
    are taken to have hosts that parse. *)
Theorem hostless_entry_blocks_every_submission
    (entries : list ConfigEntry) (self : ConfigFlow) (data : dict)
    (url : string) (entry : ConfigEntry) :
  entry ∈ entries →
  entry_data entry !! CONF_HOST = None →
  (∀ entry' host,
     entry' ∈ entries →
     entry_data entry' !! CONF_HOST = Some host →
     ∃ h, urlparse_hostname host = Ok h) →
  _make_url_from_data data = Ok url →
  _url_already_configured entries url = Raise (KeyError (VStr CONF_HOST))
  ∧ async_step_user entries self (Some data) =
      (self, Ok (FormResult "user" (<["base" := "unknown"]> ∅)), []).
Proof.
  intros Hin Hnone Hparse Hurl.
  pose proof (existing_hosts_hostless entries entry Hin Hnone Hparse) as Hall.
  assert (_url_already_configured entries url = Raise (KeyError (VStr CONF_HOST)))
    as Hdup.
  { unfold _url_already_configured. by rewrite Hall. }
  split; [exact Hdup|].
  by rewrite step_user_eq, Hurl, Hdup.
Qed.

(** X9. An import stores its input as it came.  When a record without a
    [host] field (one with protocol and address, as the form would send)
    is imported with success, the store it leaves answers every later
    submission whose URL can be built with the [unknown] error: the
    address check fails on the imported record. *)
Theorem import_without_host_blocks_the_store
    (entries : list ConfigEntry) (self other : ConfigFlow)
    (imported data : dict) (url url' : string) (t : nat) :
  imported !! CONF_HOST = None →
  _make_url_from_data imported = Ok url →
  _url_already_configured entries url = Ok false →
  config_ok (upb_lib_UpbPim url (dict_get imported CONF_FILE_PATH)) = true →
  connected_after (upb_lib_UpbPim url (dict_get imported CONF_FILE_PATH)) = Some t →
  (t ≤ VALIDATE_TIMEOUT)%nat →
  ¬ Exists
      (λ entry,
         entry_unique_id entry =
           Some (network_id (upb_lib_UpbPim url (dict_get imported CONF_FILE_PATH))))
      entries →
  _make_url_from_data data = Ok url' →
  (let '(self', r, _) := async_step_import entries self imported in
   finish_flow entries self' r) =
    entries ++
      [{| entry_unique_id :=
            Some (network_id (upb_lib_UpbPim url (dict_get imported CONF_FILE_PATH)));
          entry_title := VStr "UPB";
          entry_data := imported |}]
  ∧ async_step_user
      (let '(self', r, _) := async_step_import entries self imported in
       finish_flow entries self' r)
      other (Some data) =
      (other, Ok (FormResult "user" (<["base" := "unknown"]> ∅)), []).
Proof.
  intros Hnone Hurl Hdup Hcfg Hconn Ht Hfresh Hurl'.
  destruct (url_already_configured_parses _ _ _ Hdup) as [[hosts Hall] _].
  assert ((let '(self', r, _) := async_step_import entries self imported in
           finish_flow entries self' r) =
            entries ++
              [{| entry_unique_id :=
                    Some (network_id
                            (upb_lib_UpbPim url (dict_get imported CONF_FILE_PATH)));
                  entry_title := VStr "UPB";
                  entry_data := imported |}]) as ->.
  { unfold async_step_import.
    rewrite (step_user_stored entries _ imported url t) by done.
    by rewrite create_entry_import. }
  split; [done|].
  eapply step_user_hostless; [..|exact Hurl'].
  - apply elem_of_app. right. apply list_elem_of_here.
  - done.
  - intros entry' host [Hin|Hin]%elem_of_app Hhost.
    + by eapply existing_hosts_parse.
    + apply list_elem_of_singleton in Hin as ->. cbn in Hhost. congruence.
Qed.

Lemma existing_hosts_perm entries entries' hosts :
  entries ≡ₚ entries' →
  existing_hosts entries = Ok hosts →
  existing_hosts entries' = Ok hosts.
Proof.
  intros Hperm. revert hosts.
  induction Hperm as [|e l l' _ IH|e1 e2 l|l1 l2 l3 _ IH1 _ IH2]; intros hosts.
  - done.
  - cbn. destruct (dict_getitem (entry_data e) CONF_HOST) as [x|]; [|done]. cbn.
    destruct (urlparse_hostname x) as [h|]; [|done]. cbn.
    destruct (existing_hosts l) as [hs|]; [|done].
    by rewrite (IH hs eq_refl).
  - cbn.
    destruct (dict_getitem (entry_data e2) CONF_HOST) as [x2|]; [|done]. cbn.
    destruct (urlparse_hostname x2) as [h2|]; [|done]. cbn.
    destruct (dict_getitem (entry_data e1) CONF_HOST) as [x1|]; [|done]. cbn.
    destruct (urlparse_hostname x1) as [h1|]; [|done]. cbn.
    destruct (existing_hosts l) as [hs|]; [|done]. cbn.
    intros [= <-]. f_equal. apply set_eq. intros x.
    rewrite !elem_of_union. tauto.
  - intros H1. apply IH2, IH1, H1.
Qed.

(** X10. The address check sees the store as a set: the order of the
    entries does not change its answer (for a store whose entries all have
    a host that parses). *)
Theorem address_check_ignores_order
    (entries entries' : list ConfigEntry) (hosts : gset (option string))
    (url : string) :
  entries ≡ₚ entries' →
  existing_hosts entries = Ok hosts →
  _url_already_configured entries' url = _url_already_configured entries url.
Proof.
  intros Hperm Hall. unfold _url_already_configured.
  by rewrite Hall, (existing_hosts_perm entries entries' hosts).
Qed.


(** X12. A URL that [urlparse] refuses (it raises [ValueError], as for a
    bracket that is not closed) is answered with the [unknown] error
    before any validation: the parse of the address check is inside the
    [try] statement. *)
Theorem unparsable_url_is_unknown
    (entries : list ConfigEntry) (hosts : gset (option string))
    (self : ConfigFlow) (data : dict) (url msg : string) :
  _make_url_from_data data = Ok url →
  existing_hosts entries = Ok hosts →
  urlparse_hostname (VStr url) = Raise (ValueError msg) →
  async_step_user entries self (Some data) =
    (self, Ok (FormResult "user" (<["base" := "unknown"]> ∅)), []).
Proof.
  intros Hurl Hall Hparse.
  rewrite (step_user_check_raises entries self data url (ValueError msg));
    [done..|].
  unfold _url_already_configured. by rewrite Hall; cbn; rewrite Hparse.
Qed.

(** ** The outcomes of the validator *)

(** X13. The validator classifies its failures in a fixed order.  It
    raises [InvalidUpbFile] exactly when the URL can be built and the client
    rejects its configuration, whether or not the device would have
    answered; [CannotConnect] exactly when the configuration is accepted and
    no signal comes by the deadline; and it returns exactly when the
    configuration is accepted and the signal comes in time. *)
Theorem validator_outcomes (data : dict) :
  (fst (_validate_input data) = Raise InvalidUpbFile ↔
   ∃ url, _make_url_from_data data = Ok url
          ∧ config_ok (upb_lib_UpbPim url (dict_get data CONF_FILE_PATH)) = false)
  ∧ (fst (_validate_input data) = Raise CannotConnect ↔
     ∃ url, _make_url_from_data data = Ok url
            ∧ config_ok (upb_lib_UpbPim url (dict_get data CONF_FILE_PATH)) = true
            ∧ ∀ t, connected_after
                     (upb_lib_UpbPim url (dict_get data CONF_FILE_PATH)) = Some t →
                   (VALIDATE_TIMEOUT < t)%nat)
  ∧ ((∃ r, fst (_validate_input data) = Ok r) ↔
     ∃ url t, _make_url_from_data data = Ok url
              ∧ config_ok (upb_lib_UpbPim url (dict_get data CONF_FILE_PATH)) = true
              ∧ connected_after
                  (upb_lib_UpbPim url (dict_get data CONF_FILE_PATH)) = Some t
              ∧ (t ≤ VALIDATE_TIMEOUT)%nat).
Proof.
  destruct (_make_url_from_data data) as [url|e] eqn:Hurl.
  2: { rewrite (_validate_input_no_url data e Hurl). cbn.
       destruct (_make_url_from_data_raises data e Hurl) as [k ->].
       split_and!; split; intros H; by decompose [ex and] H. }
  destruct (config_ok (upb_lib_UpbPim url (dict_get data CONF_FILE_PATH)))
    eqn:Hcfg.
  2: { rewrite (_validate_input_invalid_file data url Hurl Hcfg). cbn.
       split_and!; split; intros H; try (by decompose [ex and] H);
         try (decompose [ex and] H; simplify_eq; congruence).
       by exists url. }
  destruct (connected_after (upb_lib_UpbPim url (dict_get data CONF_FILE_PATH)))
    as [t|] eqn:Hconn.
  - destruct (decide (t ≤ VALIDATE_TIMEOUT)%nat) as [Ht|Ht].
    + rewrite (_validate_input_connected data url t Hurl Hcfg Hconn Ht). cbn.
      split_and!; split; intros H; try (by decompose [ex and] H);
        try (decompose [ex and] H; simplify_eq; congruence).
      * destruct H as (u & [= <-] & _ & Hlate). specialize (Hlate t Hconn).
        unfold VALIDATE_TIMEOUT in *. lia.
      * by exists url, t.
      * eauto.
    + assert (∀ t', connected_after
                      (upb_lib_UpbPim url (dict_get data CONF_FILE_PATH)) = Some t' →
                    (VALIDATE_TIMEOUT < t')%nat) as Hlate.
      { intros t' Ht'. rewrite Hconn in Ht'. simplify_eq. lia. }
      rewrite (_validate_input_timeout data url Hurl Hcfg Hlate). cbn.
      split_and!; split; intros H; try (by decompose [ex and] H);
        try (decompose [ex and] H; simplify_eq; congruence).
      by exists url.
  - assert (∀ t', connected_after
                    (upb_lib_UpbPim url (dict_get data CONF_FILE_PATH)) = Some t' →
                  (VALIDATE_TIMEOUT < t')%nat) as Hlate.
    { intros t' Ht'. rewrite Hconn in Ht'. discriminate Ht'. }
    rewrite (_validate_input_timeout data url Hurl Hcfg Hlate). cbn.
    split_and!; split; intros H; try (by decompose [ex and] H);
      try (decompose [ex and] H; simplify_eq; congruence).
    by exists url.
Qed.

Lemma validate_connection_use data :
  (EvConnect ∈ snd (_validate_input data) ↔
   ∃ url, _make_url_from_data data = Ok url
          ∧ config_ok (upb_lib_UpbPim url (dict_get data CONF_FILE_PATH)) = true)
  ∧ (occurrences EvConnect (snd (_validate_input data)) ≤ 1)%nat
  ∧ occurrences EvDisconnect (snd (_validate_input data)) =
      occurrences EvConnect (snd (_validate_input data)).
Proof.
  destruct (_make_url_from_data data) as [url|e] eqn:Hurl.
  2: { rewrite (_validate_input_no_url data e Hurl). cbn.
       split_and!; [|vm_compute; lia..]. split.
       - intros [?|[]%elem_of_nil]%elem_of_cons. done.
       - by intros (u & ? & _). }
  destruct (config_ok (upb_lib_UpbPim url (dict_get data CONF_FILE_PATH)))
    eqn:Hcfg.
  2: { rewrite (_validate_input_invalid_file data url Hurl Hcfg). cbn.
       split_and!; [|vm_compute; lia..]. split.
       - unfold invalid_file_log.
         intros Hin. repeat (apply elem_of_cons in Hin as [?|Hin]; [done|]).
         by apply elem_of_nil in Hin.
       - intros (u & [= <-] & ?). congruence. }
  assert (∃ tr', snd (_validate_input data) =
                   [EvValidateInput data;
                    EvUpbPim url (dict_get data CONF_FILE_PATH);
                    EvConnect] ++ tr'
                 ∧ occurrences EvConnect tr' = 0%nat
                 ∧ occurrences EvDisconnect tr' = 1%nat) as (tr' & -> & Hc & Hd).
  { destruct (connected_after (upb_lib_UpbPim url (dict_get data CONF_FILE_PATH)))
      as [t|] eqn:Hconn;
      [destruct (decide (t ≤ VALIDATE_TIMEOUT)%nat) as [Ht|Ht]|].
    - rewrite (_validate_input_connected data url t Hurl Hcfg Hconn Ht).
      by exists [EvWait t; EvDisconnect].
    - rewrite (_validate_input_timeout data url Hurl Hcfg).
      + by exists [EvWait VALIDATE_TIMEOUT; EvDisconnect; timeout_log url].
      + intros t' Ht'. rewrite Hconn in Ht'. simplify_eq. lia.
    - rewrite (_validate_input_timeout data url Hurl Hcfg).
      + by exists [EvWait VALIDATE_TIMEOUT; EvDisconnect; timeout_log url].
      + intros t' Ht'. rewrite Hconn in Ht'. discriminate Ht'. }
  split_and!.
  - split; [by exists url|]. intros _. cbn. do 2 right. by left.
  - unfold occurrences in *. rewrite filter_app, length_app, Hc. vm_compute. lia.
  - unfold occurrences in *. rewrite !filter_app, !length_app, Hc, Hd.
    vm_compute. lia.
Qed.

(** ** The form schema *)

Lemma form_dict_lookup (p a f : string) :
  let data : dict :=
    <[CONF_PROTOCOL := VStr p]>
      (<[CONF_ADDRESS := VStr a]> (<[CONF_FILE_PATH := VStr f]> ∅)) in
  data !! CONF_HOST = None
  ∧ data !! CONF_PROTOCOL = Some (VStr p)
  ∧ data !! CONF_ADDRESS = Some (VStr a)
  ∧ data !! CONF_FILE_PATH = Some (VStr f)
  ∧ dom data = ({[CONF_PROTOCOL; CONF_ADDRESS; CONF_FILE_PATH]} : gset string).
Proof.
  cbn zeta. split_and!; reflexivity.
Qed.

Lemma DATA_SCHEMA_shape raw data :
  DATA_SCHEMA raw = Some data →
  ∃ p a f,
    data = <[CONF_PROTOCOL := VStr p]>
             (<[CONF_ADDRESS := VStr a]> (<[CONF_FILE_PATH := VStr f]> ∅))
    ∧ (p = "TCP" ∨ p = "Serial port")
    ∧ raw !! CONF_ADDRESS = Some (VStr a).
Proof.
  unfold DATA_SCHEMA. case_bool_decide; [|done].
  destruct (default (VStr "Serial port") (raw !! CONF_PROTOCOL)) as [|p]; [done|].
  destruct (raw !! CONF_ADDRESS) as [[|a]|]; try done.
  destruct (default (VStr "") (raw !! CONF_FILE_PATH)) as [|f]; [done|].
  case_bool_decide as Hp; [|done]. intros [= <-].
  exists p, a, f. split_and!; [done| |done].
  apply elem_of_cons in Hp as [->|Hp]; [by left|].
  apply list_elem_of_singleton in Hp as ->. by right.
Qed.

Lemma form_dict_url (p a f : string) :
  p = "TCP" ∨ p = "Serial port" →
  _make_url_from_data
    (<[CONF_PROTOCOL := VStr p]>
       (<[CONF_ADDRESS := VStr a]> (<[CONF_FILE_PATH := VStr f]> ∅))) =
    Ok ((if decide (p = "TCP") then "tcp://" else "serial://") +:+ a).
Proof.
  intros Hp. destruct (form_dict_lookup p a f) as (Hh & Hp' & Ha & _).
  unfold _make_url_from_data, dict_get, dict_getitem.
  rewrite Hh, Hp', Ha. cbn. rewrite PROTOCOL_MAP_lookup.
  by destruct Hp as [->| ->].
Qed.


(** X16. The defaults and the refusals of the form schema: a submission
    with an address alone is completed with protocol [Serial port] and an
    empty file path, and its URL is [serial://] and the address; a
    submission with a [host] field, or without an address, is refused. *)
Theorem schema_defaults_and_refusals (a : string) (raw : dict) :
  DATA_SCHEMA (<[CONF_ADDRESS := VStr a]> ∅) =
    Some (<[CONF_PROTOCOL := VStr "Serial port"]>
            (<[CONF_ADDRESS := VStr a]> (<[CONF_FILE_PATH := VStr ""]> ∅)))
  ∧ _make_url_from_data
      (<[CONF_PROTOCOL := VStr "Serial port"]>
         (<[CONF_ADDRESS := VStr a]> (<[CONF_FILE_PATH := VStr ""]> ∅))) =
      Ok ("serial://" +:+ a)
  ∧ (is_Some (raw !! CONF_HOST) → DATA_SCHEMA raw = None)
  ∧ (raw !! CONF_ADDRESS = None → DATA_SCHEMA raw = None).
Proof.
  split_and!.
  - reflexivity.
  - by rewrite form_dict_url by auto.
  - intros Hhost. unfold DATA_SCHEMA. rewrite bool_decide_false; [done|].
    intros Hsub. apply elem_of_dom in Hhost. apply Hsub in Hhost.
    rewrite !elem_of_union, !elem_of_singleton in Hhost.
    by destruct Hhost as [[?|?]|?].
  - intros Haddr. unfold DATA_SCHEMA. rewrite Haddr.
    case_bool_decide; [|done].
    by destruct (default (VStr "Serial port") (raw !! CONF_PROTOCOL)).
Qed.

End further.

Section further_store.
Context {E : External}.

(** ** Inputs that lack a field *)

(** X18. Without an explicit URL the protocol is read before the
    address: an input with no [protocol] key raises [KeyError] for that key,
    one with a known protocol and no [address] key raises it for the
    address.  Either way the step shows the form with the [unknown] error
    and calls no validator, through both entry points. *)
Theorem missing_field_is_unknown
    (entries : list ConfigEntry) (self : ConfigFlow) (data : dict)
    (key : string) :
  truthy (dict_get data CONF_HOST) = false →
  data !! CONF_PROTOCOL = None ∧ key = CONF_PROTOCOL
  ∨ (∃ kind scheme, data !! CONF_PROTOCOL = Some kind
                    ∧ transport_scheme kind = Some scheme)
    ∧ data !! CONF_ADDRESS = None ∧ key = CONF_ADDRESS →
  _make_url_from_data data = Raise (KeyError (VStr key))
  ∧ async_step_user entries self (Some data) =
      (self, Ok (FormResult "user" (<["base" := "unknown"]> ∅)), [])
  ∧ async_step_import entries self data =
      ({| importing := true; unique_id := unique_id self |},
       Ok (FormResult "user" (<["base" := "unknown"]> ∅)), []).
Proof.
  intros Hhost Hmiss.
  assert (_make_url_from_data data = Raise (KeyError (VStr key))) as Hurl.
  { unfold _make_url_from_data, dict_getitem. rewrite Hhost.
    destruct Hmiss as [[-> ->]|[(kind & scheme & -> & Hscheme) [-> ->]]];
      [done|].
    cbn. rewrite PROTOCOL_MAP_getitem_scheme, Hscheme. done. }
  split; [done|]. split.
  - by erewrite step_user_no_url.
  - unfold async_step_import. by erewrite step_user_no_url.
Qed.

(** ** Growth of the store *)

Lemma existing_hosts_app entries more hosts :
  existing_hosts (entries ++ more) = Ok hosts →
  ∃ h1 h2, existing_hosts entries = Ok h1
           ∧ existing_hosts more = Ok h2
           ∧ hosts = h1 ∪ h2.
Proof.
  revert hosts. induction entries as [|e rest IH]; intros hosts Hall.
  - exists ∅, hosts. split_and!; [done..|]. by rewrite (left_id_L ∅ (∪)).
  - cbn in Hall. cbn.
    destruct (dict_getitem (entry_data e) CONF_HOST) as [x|]; [|done].
    cbn in *. destruct (urlparse_hostname x) as [h|]; [|done]. cbn in *.
    destruct (existing_hosts (rest ++ more)) as [hs|] eqn:Hrest; [|done].
    destruct (IH hs eq_refl) as (h1 & h2 & -> & Hmore & ->).
    cbn in *. injection Hall as <-.
    exists ({[h]} ∪ h1), h2. split_and!; [done..|]. by rewrite (assoc_L (∪)).
Qed.

(** X19. Entries added to the store never free an address: a URL that the
    address check finds configured is still found configured in any larger
    store whose entries all have a host that parses. *)
Theorem larger_store_keeps_duplicates
    (entries more : list ConfigEntry) (hosts : gset (option string))
    (url : string) :
  _url_already_configured entries url = Ok true →
  existing_hosts (entries ++ more) = Ok hosts →
  _url_already_configured (entries ++ more) url = Ok true.
Proof.
  intros Hdup Hall.
  destruct (existing_hosts_app entries more hosts Hall)
    as (h1 & h2 & H1 & H2 & ->).
  unfold _url_already_configured in *. rewrite Hall. rewrite H1 in Hdup.
  cbn in *. destruct (urlparse_hostname (VStr url)) as [h|]; [|done].
  cbn in *. injection Hdup as Hdup. apply bool_decide_eq_true in Hdup.
  rewrite bool_decide_true; [done|]. by apply elem_of_union_l.
Qed.

End further_store.

(** ** Serial devices *)

Lemma serial_url_has_no_hostname (rest : string) :
  urllib.hostname (VStr ("serial://" +:+ String "/" rest)) = Ok None.
Proof. reflexivity. Qed.

(** X17. The address check compares hostnames, and the URL of a serial
    device given by a path, [serial:///dev/...], has none: in a store whose
    entries all have a host that parses, once one such device is in the
    store, a submission for any other is aborted as already configured,
    without validation. *)
Theorem serial_devices_collide
    (client : string → value → UpbPim) (entries : list ConfigEntry)
    (hosts : gset (option string)) (entry : ConfigEntry) (self : ConfigFlow)
    (data : dict) (rest rest' : string) :
  existing_hosts (E := py_external client) entries = Ok hosts →
  entry ∈ entries →
  entry_data entry !! CONF_HOST = Some (VStr ("serial://" +:+ String "/" rest)) →
  data !! CONF_HOST = None →
  data !! CONF_PROTOCOL = Some (VStr "Serial port") →
  data !! CONF_ADDRESS = Some (VStr (String "/" rest')) →
  _make_url_from_data data = Ok ("serial://" +:+ String "/" rest')
  ∧ async_step_user (E := py_external client) entries self (Some data) =
      (self, Ok (AbortResult "already_configured"), []).
Proof.
  intros Hall Hin Hhost Hnone Hproto Haddr.
  assert (_make_url_from_data data = Ok ("serial://" +:+ String "/" rest'))
    as Hurl.
  { unfold _make_url_from_data, dict_get, dict_getitem.
    by rewrite Hnone, Hproto, Haddr. }
  split; [done|].
  eapply (step_user_duplicate (E := py_external client)); [exact Hurl|].
  eapply (url_already_configured_elem (E := py_external client));
    [exact Hall|exact Hin|exact Hhost|..].
  - apply serial_url_has_no_hostname.
  - apply serial_url_has_no_hostname.
Qed.

(** ** The further properties at the scenarios *)

Lemma record_only_after_connection_witness :
  ∃ data url t,
    Some scenario_input = Some data
    ∧ _make_url_from_data data = Ok url
    ∧ _url_already_configured (E := py_external (scenario_client (Some 2%nat)))
        [] url = Ok false
    ∧ config_ok (scenario_client (Some 2%nat) url (dict_get data CONF_FILE_PATH))
      = true
    ∧ connected_after
        (scenario_client (Some 2%nat) url (dict_get data CONF_FILE_PATH)) = Some t
    ∧ (t ≤ VALIDATE_TIMEOUT)%nat
    ∧ {| importing := false; unique_id := Some "NET42" |} =
        async_set_unique_id __init__
          (network_id
             (scenario_client (Some 2%nat) url (dict_get data CONF_FILE_PATH)))
    ∧ ¬ Exists (λ entry, entry_unique_id entry = Some "NET42") []
    ∧ VStr "UPB" = VStr "UPB"
    ∧ [EvValidateInput scenario_input;
       EvUpbPim "tcp://192.0.2.5:2101" (VStr "");
       EvConnect; EvWait 2; EvDisconnect] =
        [EvValidateInput data; EvUpbPim url (dict_get data CONF_FILE_PATH);
         EvConnect; EvWait t; EvDisconnect].
Proof.
  apply (record_only_after_connection
           (E := py_external (scenario_client (Some 2%nat)))
           [] __init__ {| importing := false; unique_id := Some "NET42" |}
           (Some scenario_input) (VStr "UPB") scenario_data).
  vm_compute. reflexivity.
Defined.

Lemma missing_file_path_raises_witness :
  async_step_user (E := py_external (scenario_client (Some 2%nat)))
    [] __init__ (Some url_only_input) =
    (async_set_unique_id __init__ "NET42",
     Raise (KeyError (VStr CONF_FILE_PATH)),
     [EvValidateInput url_only_input; EvUpbPim "tcp://192.0.2.5:2101" VNone;
      EvConnect; EvWait 2; EvDisconnect])
  ∧ finish_flow [] (async_set_unique_id __init__ "NET42")
      (Raise (KeyError (VStr CONF_FILE_PATH))) = [].
Proof.
  apply (missing_file_path_raises
           (E := py_external (scenario_client (Some 2%nat)))
           [] __init__ url_only_input "tcp://192.0.2.5:2101" 2).
  - reflexivity.
  - vm_compute. reflexivity.
  - vm_compute. reflexivity.
  - reflexivity.
  - reflexivity.
  - vm_compute. lia.
  - intros Hex. apply Exists_nil in Hex. exact Hex.
  - vm_compute. reflexivity.
Defined.


Lemma form_carries_one_error_witness :
  "user" = "user"
  ∧ __init__ = __init__
  ∧ (<["base" := "unknown"]> ∅ = <["base" := "cannot_connect"]> (∅ : gmap string string)
     ∨ <["base" := "unknown"]> ∅ = <["base" := "invalid_upb_file"]> (∅ : gmap string string)
     ∨ <["base" := "unknown"]> ∅ = <["base" := "unknown"]> (∅ : gmap string string))
  ∧ finish_flow [] __init__
      (Ok (FormResult "user" (<["base" := "unknown"]> ∅))) = [].
Proof.
  apply (form_carries_one_error
           (E := py_external (scenario_client (Some 2%nat)))
           [] __init__ __init__ udp_input "user" (<["base" := "unknown"]> ∅) []).
  vm_compute. reflexivity.
Defined.

Lemma import_flag_outlives_import_witness :
  snd (fst (async_step_user (E := py_external (scenario_client (Some 2%nat))) []
              (fst (fst (async_step_import
                           (E := py_external (scenario_client (Some 2%nat)))
                           [] __init__ udp_input)))
              (Some scenario_input))) =
    Ok (CreateEntryResult (VStr "UPB") scenario_input).
Proof.
  apply (import_flag_outlives_import
           (E := py_external (scenario_client (Some 2%nat)))
           [] [] __init__ udp_input scenario_input "tcp://192.0.2.5:2101" 2).
  - vm_compute. reflexivity.
  - vm_compute. reflexivity.
  - reflexivity.
  - reflexivity.
  - vm_compute. lia.
  - intros Hex. apply Exists_nil in Hex. exact Hex.
Defined.

Lemma hostless_entry_blocks_every_submission_witness :
  _url_already_configured (E := py_external (scenario_client (Some 2%nat)))
    [imported_entry] "tcp://192.0.2.9:2101" = Raise (KeyError (VStr CONF_HOST))
  ∧ async_step_user (E := py_external (scenario_client (Some 2%nat)))
      [imported_entry] __init__ (Some moved_input) =
      (__init__, Ok (FormResult "user" (<["base" := "unknown"]> ∅)), []).
Proof.
  apply (hostless_entry_blocks_every_submission
           (E := py_external (scenario_client (Some 2%nat)))
           [imported_entry] __init__ moved_input "tcp://192.0.2.9:2101"
           imported_entry).
  - apply list_elem_of_here.
  - vm_compute. reflexivity.
  - intros entry' host Hin Hhost.
    apply list_elem_of_singleton in Hin. subst entry'.
    vm_compute in Hhost. discriminate Hhost.
  - vm_compute. reflexivity.
Defined.

Lemma import_without_host_blocks_the_store_witness :
  (let '(self', r, _) :=
     async_step_import (E := py_external (scenario_client (Some 2%nat)))
       [] __init__ scenario_input in
   finish_flow [] self' r) =
    [] ++ [{| entry_unique_id :=
                Some (network_id
                        (scenario_client (Some 2%nat) "tcp://192.0.2.5:2101"
                           (dict_get scenario_input CONF_FILE_PATH)));
              entry_title := VStr "UPB";
              entry_data := scenario_input |}]
  ∧ async_step_user (E := py_external (scenario_client (Some 2%nat)))
      (let '(self', r, _) :=
         async_step_import (E := py_external (scenario_client (Some 2%nat)))
           [] __init__ scenario_input in
       finish_flow [] self' r)
      __init__ (Some moved_input) =
      (__init__, Ok (FormResult "user" (<["base" := "unknown"]> ∅)), []).
Proof.
  apply (import_without_host_blocks_the_store
           (E := py_external (scenario_client (Some 2%nat)))
           [] __init__ __init__ scenario_input moved_input
           "tcp://192.0.2.5:2101" "tcp://192.0.2.9:2101" 2).
  - vm_compute. reflexivity.
  - vm_compute. reflexivity.
  - vm_compute. reflexivity.
  - reflexivity.
  - reflexivity.
  - vm_compute. lia.
  - intros Hex. apply Exists_nil in Hex. exact Hex.
  - vm_compute. reflexivity.
Defined.

Lemma address_check_ignores_order_witness :
  _url_already_configured (E := py_external (scenario_client (Some 2%nat)))
    [named_entry; scenario_entry] "tcp://192.0.2.5:9" =
    _url_already_configured (E := py_external (scenario_client (Some 2%nat)))
      [scenario_entry; named_entry] "tcp://192.0.2.5:9".
Proof.
  apply (address_check_ignores_order
           (E := py_external (scenario_client (Some 2%nat)))
           [scenario_entry; named_entry] [named_entry; scenario_entry]
           ({[ Some "192.0.2.5" ]} ∪ ({[ Some "pim.example" ]} ∪ ∅))).
  - apply perm_swap.
  - vm_compute. reflexivity.
Defined.


Lemma unparsable_url_is_unknown_witness :
  async_step_user (E := py_external (scenario_client (Some 2%nat)))
    [scenario_entry] __init__ (Some bracket_input) =
    (__init__, Ok (FormResult "user" (<["base" := "unknown"]> ∅)), []).
Proof.
  apply (unparsable_url_is_unknown
           (E := py_external (scenario_client (Some 2%nat)))
           [scenario_entry] {[ Some "192.0.2.5" ]} __init__ bracket_input
           "tcp://[fe80::1" "Invalid IPv6 URL").
  - vm_compute. reflexivity.
  - vm_compute. reflexivity.
  - vm_compute. reflexivity.
Defined.


Lemma serial_devices_collide_witness :
  _make_url_from_data (serial_input "/dev/ttyS1") = Ok "serial:///dev/ttyS1"
  ∧ async_step_user (E := py_external (scenario_client (Some 2%nat)))
      [serial_entry "/dev/ttyS0"] __init__ (Some (serial_input "/dev/ttyS1")) =
      (__init__, Ok (AbortResult "already_configured"), []).
Proof.
  apply (serial_devices_collide (scenario_client (Some 2%nat))
           [serial_entry "/dev/ttyS0"] {[ None ]} (serial_entry "/dev/ttyS0")
           __init__ (serial_input "/dev/ttyS1") "dev/ttyS0" "dev/ttyS1").
  - vm_compute. reflexivity.
  - apply list_elem_of_here.
  - vm_compute. reflexivity.
  - vm_compute. reflexivity.
  - vm_compute. reflexivity.
  - vm_compute. reflexivity.
Defined.

Lemma missing_field_is_unknown_witness :
  _make_url_from_data (∅ : dict) = Raise (KeyError (VStr CONF_PROTOCOL))
  ∧ async_step_user (E := py_external (scenario_client (Some 2%nat)))
      [] __init__ (Some ∅) =
      (__init__, Ok (FormResult "user" (<["base" := "unknown"]> ∅)), [])
  ∧ async_step_import (E := py_external (scenario_client (Some 2%nat)))
      [] __init__ ∅ =
      ({| importing := true; unique_id := unique_id __init__ |},
       Ok (FormResult "user" (<["base" := "unknown"]> ∅)), []).
Proof.
  apply (missing_field_is_unknown
           (E := py_external (scenario_client (Some 2%nat))) [] __init__ ∅
           CONF_PROTOCOL).
  - reflexivity.
  - left. split; reflexivity.
Defined.

Lemma larger_store_keeps_duplicates_witness :
  _url_already_configured (E := py_external (scenario_client (Some 2%nat)))
    ([scenario_entry] ++ [named_entry]) "tcp://192.0.2.5:9" = Ok true.
Proof.
  apply (larger_store_keeps_duplicates
           (E := py_external (scenario_client (Some 2%nat)))
           [scenario_entry] [named_entry]
           ({[ Some "192.0.2.5" ]} ∪ ({[ Some "pim.example" ]} ∪ ∅))).
  - vm_compute. reflexivity.
  - vm_compute. reflexivity.
Defined.

(** * The connection under interruption *)

Section interrupted_validator.
Context {E : External}.
Variable interruptions : string → value → interruption.

(** The interruptible validator, case by case: it is [_validate_input]
    unless an interruption takes effect after the client accepted its
    configuration. *)
Lemma validate_interruptible_eq data :
  _validate_input_interruptible interruptions data =
    match _make_url_from_data data with
    | Ok url =>
        let upb := upb_lib_UpbPim url (dict_get data CONF_FILE_PATH) in
        let i := interruptions url (dict_get data CONF_FILE_PATH) in
        if config_ok upb && interrupted upb i VALIDATE_TIMEOUT then
          match connect_raises i, await_raises i with
          | Some e, _ =>
              (Raise e,
               [EvValidateInput data;
                EvUpbPim url (dict_get data CONF_FILE_PATH); EvConnect])
          | None, Some (s, e) =>
              (Raise e,
               [EvValidateInput data;
                EvUpbPim url (dict_get data CONF_FILE_PATH);
                EvConnect; EvWait s])
          | None, None => _validate_input data
          end
        else _validate_input data
    | Raise _ => _validate_input data
    end.
Proof.
  unfold _validate_input_interruptible, _validate_input.
  destruct (_make_url_from_data data) as [url|e]; [|reflexivity].
  unfold interrupted, connect_or_raise, wait_or_raise. cbn.
  destruct (config_ok (upb_lib_UpbPim url (dict_get data CONF_FILE_PATH)));
    [|reflexivity].
  destruct (connect_raises (interruptions url (dict_get data CONF_FILE_PATH)))
    as [e|]; [reflexivity|].
  destruct (await_raises (interruptions url (dict_get data CONF_FILE_PATH)))
    as [[s e]|]; [case_bool_decide; [reflexivity|]|]; cbn;
    by destruct (wait_connected _ _) as [[[]|] tr].
Qed.

Lemma validate_uninterrupted data :
  (∀ url,
     _make_url_from_data data = Ok url →
     config_ok (upb_lib_UpbPim url (dict_get data CONF_FILE_PATH)) = true →
     interrupted (upb_lib_UpbPim url (dict_get data CONF_FILE_PATH))
       (interruptions url (dict_get data CONF_FILE_PATH)) VALIDATE_TIMEOUT
     = false) →
  _validate_input_interruptible interruptions data = _validate_input data.
Proof.
  intros Hnone. rewrite validate_interruptible_eq.
  destruct (_make_url_from_data data) as [url|e]; [|done]. cbn zeta.
  destruct (config_ok (upb_lib_UpbPim url (dict_get data CONF_FILE_PATH)))
    eqn:Hcfg; [|done].
  by rewrite (Hnone url eq_refl Hcfg).
Qed.

(** The two shapes of a run: the one of [_validate_input], or a run cut
    short after [connect]. *)
Lemma validate_interruptible_trace data :
  _validate_input_interruptible interruptions data = _validate_input data
  ∧ (∀ url,
       _make_url_from_data data = Ok url →
       config_ok (upb_lib_UpbPim url (dict_get data CONF_FILE_PATH)) = true →
       interrupted (upb_lib_UpbPim url (dict_get data CONF_FILE_PATH))
         (interruptions url (dict_get data CONF_FILE_PATH)) VALIDATE_TIMEOUT
       = false)
  ∨ ∃ url e tail,
      _make_url_from_data data = Ok url
      ∧ config_ok (upb_lib_UpbPim url (dict_get data CONF_FILE_PATH)) = true
      ∧ interrupted (upb_lib_UpbPim url (dict_get data CONF_FILE_PATH))
          (interruptions url (dict_get data CONF_FILE_PATH)) VALIDATE_TIMEOUT
        = true
      ∧ _validate_input_interruptible interruptions data =
          (Raise e,
           [EvValidateInput data; EvUpbPim url (dict_get data CONF_FILE_PATH);
            EvConnect] ++ tail)
      ∧ (tail = [] ∨ ∃ s, tail = [EvWait s]).
Proof.
  destruct (_make_url_from_data data) as [url|e0] eqn:Hurl.
  2: { left. split; [|done]. apply validate_uninterrupted.
       intros url Hu. by rewrite Hurl in Hu. }
  destruct (config_ok (upb_lib_UpbPim url (dict_get data CONF_FILE_PATH)))
    eqn:Hcfg.
  2: { left. split; [|intros u [= <-]; congruence].
       apply validate_uninterrupted. intros u Hu. rewrite Hurl in Hu.
       simplify_eq. congruence. }
  destruct (interrupted (upb_lib_UpbPim url (dict_get data CONF_FILE_PATH))
              (interruptions url (dict_get data CONF_FILE_PATH)) VALIDATE_TIMEOUT)
    eqn:Hint.
  2: { left. split; [|by intros u [= <-]].
       apply validate_uninterrupted. intros u Hu. rewrite Hurl in Hu.
       by simplify_eq. }
  right. rewrite validate_interruptible_eq, Hurl. cbn zeta.
  rewrite Hcfg, Hint. cbn. pose proof Hint as Hint'.
  unfold interrupted in Hint'.
  destruct (connect_raises _) as [e|].
  - exists url, e, []. split_and!; [done..|reflexivity|by left].
  - destruct (await_raises _) as [[s e]|]; [|done].
    exists url, e, [EvWait s]. split_and!; [done..|reflexivity|right; by exists s].
Qed.


(** X14. The validator calls [connect] exactly when the URL can be built
    and the client accepts its configuration, and then once; it never
    disconnects more often than it connects, and it disconnects as often as
    it connects exactly when the run ends with the connection closed, that
    is, when neither [connect] nor the wait is interrupted.  No step of the
    flow connects more than once. *)
Theorem connects_at_most_once
    (entries : list ConfigEntry) (self : ConfigFlow) (data : dict)
    (user_input : option dict) :
  (EvConnect ∈ snd (_validate_input_interruptible interruptions data) ↔
   ∃ url, _make_url_from_data data = Ok url
          ∧ config_ok (upb_lib_UpbPim url (dict_get data CONF_FILE_PATH)) = true)
  ∧ (occurrences EvConnect
       (snd (_validate_input_interruptible interruptions data)) ≤ 1)%nat
  ∧ (occurrences EvDisconnect
       (snd (_validate_input_interruptible interruptions data))
     ≤ occurrences EvConnect
         (snd (_validate_input_interruptible interruptions data)))%nat
  ∧ (occurrences EvDisconnect
       (snd (_validate_input_interruptible interruptions data))
     = occurrences EvConnect
         (snd (_validate_input_interruptible interruptions data))
     ↔ connection_open
         (snd (_validate_input_interruptible interruptions data)) = false)
  ∧ (occurrences EvConnect (snd (async_step_user entries self user_input)) ≤ 1)%nat.
Proof.
  assert (occurrences EvConnect (snd (async_step_user entries self user_input))
          ≤ 1)%nat as Hstep.
  { destruct (step_user_trace entries self user_input) as [->|(d & -> & ->)].
    - vm_compute. lia.
    - apply validate_connection_use. }
  destruct (validate_interruptible_trace data)
    as [[-> Hnone]|(url & e & tail & Hurl & Hcfg & Hint & -> & Htail)].
  - destruct (validate_connection_use data) as (Hiff & Hone & Hsame).
    destruct (validate_trace_cleanup data) as [_ Hclosed].
    split_and!; try done; [lia|by rewrite Hsame, Hclosed..].
  - split_and!; [|destruct Htail as [->|[s ->]]; vm_compute..|done].
    + split; [by exists url|]. intros _. cbn. do 2 right. by left.
    + lia.
    + lia.
    + lia.
    + lia.
    + split; intros; discriminate.
    + split; intros; discriminate.
Qed.

End interrupted_validator.

(** ** The address check and the hostname, revisited *)


(** ** Inputs on which the validator leaves the connection open or the address check raises *)

(** After a user-driven registration and the import of a record as the form
    sends it, a submission for the registered host is not aborted: the
    address check raises on the imported record. *)
Lemma duplicate_host_counterexample :
  reachable mixed_store
  ∧ _make_url_from_data scenario_input = Ok "tcp://192.0.2.5:2101"
  ∧ urlparse_hostname (External := py_external url_client)
      (VStr "tcp://192.0.2.5:2101") = Ok (Some "192.0.2.5")
  ∧ (∃ entry host,
       entry ∈ mixed_store
       ∧ entry_data entry !! CONF_HOST = Some host
       ∧ urlparse_hostname (External := py_external url_client) host =
           Ok (Some "192.0.2.5"))
  ∧ async_step_user (E := py_external url_client)
      mixed_store __init__ (Some scenario_input) =
      (__init__, Ok (FormResult "user" (<["base" := "unknown"]> ∅)), [])
  ∧ snd (fst (async_step_user (E := py_external url_client)
                mixed_store __init__ (Some scenario_input)))
    ≠ Ok (AbortResult "already_configured").
Proof.
  split_and!.
  - pose proof (step_user [] (py_external url_client) __init__
                  (Some scenario_input)) as Hfirst.
    pose proof (step_import
                  [{| entry_unique_id := Some "tcp://192.0.2.5:2101";
                      entry_title := VStr "UPB";
                      entry_data := scenario_data |}]
                  (py_external url_client) __init__ moved_input) as Hsecond.
    vm_compute in Hfirst. vm_compute in Hsecond.
    eapply reachable_step; [|exact Hsecond].
    eapply reachable_step; [apply reachable_empty|exact Hfirst].
  - vm_compute. reflexivity.
  - vm_compute. reflexivity.
  - eexists _, (VStr "tcp://192.0.2.5:2101"). split_and!.
    + apply list_elem_of_here.
    + vm_compute. reflexivity.
    + vm_compute. reflexivity.
  - vm_compute. reflexivity.
  - vm_compute. discriminate.
Qed.



